(** * Document-state cache of the markdown-to-PDF converter

    A shallow embedding of [markdown_to_pdf/verification.py]:

    - the content fingerprinter [calculate_file_hash], which streams a file
      in 4096-byte chunks into a [hashlib.sha256] object;
    - the [DocumentStateManager], a one-table SQLite store, with the
      staleness protocol [needs_regeneration];
    - the earlier module [document_verification.py], the use the converter of
      [ebook_converter.py] makes of the store, and the configuration of
      [config.py].

    [hashlib.sha256] is modelled by SHA-256 as FIPS 180-4 defines it, once as
    the one-shot function of the standard and once as the running digest
    object (chaining value, partial block, byte count) that [update] feeds.
    The SQLite table is a finite map from the primary key [filename] to its
    row, and every method threads the database through a small state and
    exception monad. *)

From Stdlib Require Import Ascii ZArith Lia DecimalString.
From Stdlib Require DecimalZ.
From stdpp Require Import gmap strings list.
From Equations Require Import Equations.

Set Default Proof Using "Type".

Abbreviation byte := Byte.byte.

(** ** Python exceptions and results *)

(** The exception classes that can travel through the module.  In Python 3
    [IOError] is an alias of [OSError]; [FileNotFoundError], [PermissionError]
    and [IsADirectoryError] are subclasses of it; [RuntimeError] and
    [sqlite3.Error] are unrelated to it. *)
Inductive exn : Type :=
  | FileNotFoundError
  | PermissionError
  | OSError
  | SqliteError
  | RuntimeError.

#[global] Instance exn_eq_dec : EqDecision exn.
Proof. solve_decision. Defined.

(** [isinstance(e, IOError)] *)
Definition is_IOError (e : exn) : bool :=
  match e with
  | FileNotFoundError | PermissionError | OSError => true
  | SqliteError | RuntimeError => false
  end.

Inductive result (A : Type) : Type :=
  | Ok (a : A)
  | Raise (e : exn).
Arguments Ok {A} a.
Arguments Raise {A} e.

(** ** SHA-256 (the model of [hashlib.sha256]) *)

Module SHA256.
Local Open Scope Z_scope.

Definition wrap32 (x : Z) : Z := x mod 2 ^ 32.
Definition add32 (x y : Z) : Z := wrap32 (x + y).
Definition ROTR (n x : Z) : Z :=
  Z.lor (Z.shiftr x n) (wrap32 (Z.shiftl x (32 - n))).
Definition SHR (n x : Z) : Z := Z.shiftr x n.
Definition NOT32 (x : Z) : Z := Z.lxor x 0xffffffff.

Definition Ch (x y z : Z) : Z := Z.lxor (Z.land x y) (Z.land (NOT32 x) z).
Definition Maj (x y z : Z) : Z :=
  Z.lxor (Z.lxor (Z.land x y) (Z.land x z)) (Z.land y z).
Definition Sigma0 (x : Z) : Z := Z.lxor (Z.lxor (ROTR 2 x) (ROTR 13 x)) (ROTR 22 x).
Definition Sigma1 (x : Z) : Z := Z.lxor (Z.lxor (ROTR 6 x) (ROTR 11 x)) (ROTR 25 x).
Definition sigma0 (x : Z) : Z := Z.lxor (Z.lxor (ROTR 7 x) (ROTR 18 x)) (SHR 3 x).
Definition sigma1 (x : Z) : Z := Z.lxor (Z.lxor (ROTR 17 x) (ROTR 19 x)) (SHR 10 x).

(** The first sixty-four primes. *)
Definition primes : list Z :=
  [ 2; 3; 5; 7; 11; 13; 17; 19; 23; 29; 31; 37; 41; 43; 47; 53;
    59; 61; 67; 71; 73; 79; 83; 89; 97; 101; 103; 107; 109; 113; 127; 131;
    137; 139; 149; 151; 157; 163; 167; 173; 179; 181; 191; 193; 197; 199;
    211; 223; 227; 229; 233; 239; 241; 251; 257; 263; 269; 271; 277; 281;
    283; 293; 307; 311 ].

(** Integer cube root below [2 ^ bits], one bit at a time from the top. *)
Fixpoint cube_root_bits (bits : nat) (x acc : Z) : Z :=
  match bits with
  | O => acc
  | S b =>
      let candidate := acc + 2 ^ Z.of_nat b in
      cube_root_bits b x
        (if candidate * candidate * candidate <=? x then candidate else acc)
  end.

(** The round constants: the first thirty-two bits of the fractional parts
    of the cube roots of the first sixty-four primes. *)
Definition K : list Z :=
  Eval vm_compute in
    map (fun p => wrap32 (cube_root_bits 36 (p * 2 ^ 96) 0)) primes.

(** The eight working variables, also the chaining value between blocks. *)
Record regs : Type := Regs {
  ra : Z; rb : Z; rc : Z; rd : Z; re : Z; rf : Z; rg : Z; rh : Z
}.

(** The initial hash value: the first thirty-two bits of the fractional
    parts of the square roots of the first eight primes. *)
Definition frac_sqrt32 (p : Z) : Z := wrap32 (Z.sqrt (p * 2 ^ 64)).

Definition H0 : regs :=
  Eval vm_compute in
    Regs (frac_sqrt32 2) (frac_sqrt32 3) (frac_sqrt32 5) (frac_sqrt32 7)
         (frac_sqrt32 11) (frac_sqrt32 13) (frac_sqrt32 17) (frac_sqrt32 19).

Definition Z_of_byte (b : byte) : Z := Z.of_N (Byte.to_N b).
Definition byte_of_Z (z : Z) : byte :=
  default Byte.x00 (Byte.of_N (Z.to_N (z mod 256))).

(** Big-endian 32-bit words of a byte string. *)
Fixpoint be_words (bs : list byte) : list Z :=
  match bs with
  | b0 :: b1 :: b2 :: b3 :: rest =>
      Z.lor (Z.lor (Z.shiftl (Z_of_byte b0) 24) (Z.shiftl (Z_of_byte b1) 16))
            (Z.lor (Z.shiftl (Z_of_byte b2) 8) (Z_of_byte b3))
      :: be_words rest
  | _ => []
  end.

(** Message schedule; [rw] holds W(t-1), W(t-2), ... newest first. *)
Fixpoint expand (n : nat) (rw : list Z) : list Z :=
  match n with
  | O => rw
  | S n' =>
      let w := add32 (add32 (add32 (sigma1 (nth 1 rw 0)) (nth 6 rw 0))
                            (sigma0 (nth 14 rw 0))) (nth 15 rw 0) in
      expand n' (w :: rw)
  end.

Definition schedule (block : list byte) : list Z :=
  rev (expand 48 (rev (be_words block))).

Definition round (s : regs) (kw : Z * Z) : regs :=
  let T1 := add32 (add32 (add32 (add32 (rh s) (Sigma1 (re s)))
                                (Ch (re s) (rf s) (rg s))) (fst kw)) (snd kw) in
  let T2 := add32 (Sigma0 (ra s)) (Maj (ra s) (rb s) (rc s)) in
  Regs (add32 T1 T2) (ra s) (rb s) (rc s) (add32 (rd s) T1) (re s) (rf s) (rg s).

(** One application of the compression function to a 64-byte block. *)
Definition compress (h : regs) (block : list byte) : regs :=
  let s := fold_left round (combine K (schedule block)) h in
  Regs (add32 (ra h) (ra s)) (add32 (rb h) (rb s))
       (add32 (rc h) (rc s)) (add32 (rd h) (rd s))
       (add32 (re h) (re s)) (add32 (rf h) (rf s))
       (add32 (rg h) (rg s)) (add32 (rh h) (rh s)).

(** Compress the first [n] 64-byte blocks of [m], in order. *)
Fixpoint hash_blocks (n : nat) (h : regs) (m : list byte) : regs :=
  match n with
  | O => h
  | S n' => hash_blocks n' (compress h (take 64 m)) (drop 64 m)
  end.

Definition be64 (n : Z) : list byte :=
  map (fun i => byte_of_Z (Z.shiftr n (8 * i))) [7; 6; 5; 4; 3; 2; 1; 0].

(** The padding appended to a message of [len] bytes: the bit 1, zero bits
    up to 448 modulo 512, and the bit length as a 64-bit big-endian number. *)
Definition padding (len : nat) : list byte :=
  Byte.x80
    :: repeat Byte.x00 (Z.to_nat ((55 - Z.of_nat len) mod 64))
    ++ be64 ((8 * Z.of_nat len) mod 2 ^ 64).

Definition be32 (w : Z) : list byte :=
  map (fun i => byte_of_Z (Z.shiftr w (8 * i))) [3; 2; 1; 0].

Definition regs_bytes (h : regs) : list byte :=
  be32 (ra h) ++ be32 (rb h) ++ be32 (rc h) ++ be32 (rd h)
  ++ be32 (re h) ++ be32 (rf h) ++ be32 (rg h) ++ be32 (rh h).

(** *** The standard's one-shot function: pad the whole message, parse it
    into 512-bit blocks, iterate the compression function. *)
Definition sha256_oneshot (m : list byte) : list byte :=
  let p := m ++ padding (length m) in
  regs_bytes (hash_blocks (length p / 64)%nat H0 p).

(** *** The running digest object.  It keeps the chaining value of the
    blocks consumed so far, the bytes of the incomplete last block, and the
    number of bytes fed. *)
Record hashobj : Type := HashObj {
  chain : regs;
  partial : list byte;
  fed : nat
}.

(** [hashlib.sha256()] *)
Definition new : hashobj := HashObj H0 [] 0.

(** [obj.update(data)]: consume every complete block of the buffered bytes
    followed by [data]; keep the rest. *)
Definition update (o : hashobj) (data : list byte) : hashobj :=
  let pending := partial o ++ data in
  let n := (length pending / 64)%nat in
  HashObj (hash_blocks n (chain o) pending)
          (drop (64 * n)%nat pending)
          (fed o + length data)%nat.

(** [obj.digest()] *)
Definition digest (o : hashobj) : list byte :=
  let last := partial o ++ padding (fed o) in
  regs_bytes (hash_blocks (length last / 64)%nat (chain o) last).

Definition hex_digit (n : N) : Ascii.ascii :=
  match n with
  | 0%N => "0" | 1%N => "1" | 2%N => "2" | 3%N => "3"
  | 4%N => "4" | 5%N => "5" | 6%N => "6" | 7%N => "7"
  | 8%N => "8" | 9%N => "9" | 10%N => "a" | 11%N => "b"
  | 12%N => "c" | 13%N => "d" | 14%N => "e" | _ => "f"
  end%char.

(** [bytes.hex()]: two lowercase digits per byte. *)
Fixpoint hex (bs : list byte) : string :=
  match bs with
  | [] => EmptyString
  | b :: rest =>
      String (hex_digit (Byte.to_N b / 16))
        (String (hex_digit (Byte.to_N b mod 16)) (hex rest))
  end.

(** [obj.hexdigest()] *)
Definition hexdigest (o : hashobj) : string := hex (digest o).

End SHA256.

(** ** The result monad and [try]/[except] *)

#[global] Instance result_ret : MRet result := fun _ a => Ok a.
#[global] Instance result_bind : MBind result := fun _ _ k r =>
  match r with
  | Ok a => k a
  | Raise e => Raise e
  end.

(** [try: body except <classes>: handler]; [catches] tells which exceptions
    the [except] clause matches, every other one propagates. *)
Definition try_except {A : Type} (body : result A) (catches : exn -> bool)
    (handler : exn -> result A) : result A :=
  match body with
  | Ok a => Ok a
  | Raise e => if catches e then handler e else Raise e
  end.

(** [except Exception]: every class of [exn] derives from [Exception]. *)
Definition Exception (e : exn) : bool := true.
(** [except RuntimeError] *)
Definition is_RuntimeError (e : exn) : bool := bool_decide (e = RuntimeError).
(** [except sqlite3.Error] *)
Definition is_sqlite3_Error (e : exn) : bool := bool_decide (e = SqliteError).

(** ** The filesystem, as far as the module looks at it *)

Inductive node : Type :=
  | Regular (content : list byte)
      (** a regular file that opens and reads to its end *)
  | Damaged (readable : list byte)
      (** opens, delivers [readable], then the device fails *)
  | Unopenable.
      (** exists, but [open] is refused (permissions, a directory) *)

Abbreviation filesystem := (gmap string node).

(** An open binary file: the bytes not read yet, and whether reading past
    them reaches the end of the file or an I/O error. *)
Record handle : Type := Handle {
  unread : list byte;
  healthy : bool
}.

(** [open(file_path, "rb")] *)
Definition open_rb (fs : filesystem) (file_path : string) : result handle :=
  match fs !! file_path with
  | None => Raise FileNotFoundError
  | Some Unopenable => Raise PermissionError
  | Some (Regular content) => Ok (Handle content true)
  | Some (Damaged readable) => Ok (Handle readable false)
  end.

(** [f.read(n)]: the next [n] bytes, fewer at the end of the file, [b""] at
    the end itself. *)
Definition f_read (n : nat) (f : handle) : result (list byte * handle) :=
  match unread f with
  | [] => if healthy f then Ok ([], f) else Raise OSError
  | _ :: _ => Ok (take n (unread f), Handle (drop n (unread f)) (healthy f))
  end.

(** [pdf_path.exists()] *)
Definition path_exists (fs : filesystem) (p : string) : bool :=
  bool_decide (is_Some (fs !! p)).

(** ** calculate_file_hash *)

(** Keeps the equation of a scrutinee for the termination argument. *)
Definition inspect {A : Type} (a : A) : {b : A | a = b} := exist _ a eq_refl.

(** The chunk size of [f.read(4096)]. *)
Definition CHUNK_SIZE : nat := 4096.

(** [for chunk in iter(lambda: f.read(4096), b""): sha256_hash.update(chunk)] *)
Equations? read_chunks (f : handle) (sha256_hash : SHA256.hashobj)
    : result SHA256.hashobj by wf (length (unread f)) lt :=
  read_chunks f sha256_hash with inspect (f_read CHUNK_SIZE f) := {
    | exist _ (Raise e) _ => Raise e
    | exist _ (Ok ([], _)) _ => Ok sha256_hash
    | exist _ (Ok (b :: chunk, f')) Hread =>
        read_chunks f' (SHA256.update sha256_hash (b :: chunk)) }.
Proof.
  unfold f_read in Hread. destruct f as [[|b0 rest] ok]; cbn [unread healthy] in *.
  - destruct ok; discriminate.
  - injection Hread as _ _ <-. cbn [unread]. rewrite length_drop.
    apply Nat.le_lt_trans with (length rest); [apply Nat.le_sub_l | simpl; lia].
Qed.

Definition calculate_file_hash (fs : filesystem) (file_path : string)
    : result string :=
  let sha256_hash := SHA256.new in
  try_except
    (f ← open_rb fs file_path;
     sha256_hash ← read_chunks f sha256_hash;
     mret (SHA256.hexdigest sha256_hash))
    Exception
    (fun e => Raise RuntimeError).

(** [verify_pdf_exists_and_matches] *)
Definition verify_pdf_exists_and_matches (fs : filesystem) (pdf_path : string)
    (expected_hash : string) : result bool :=
  if negb (path_exists fs pdf_path) then Ok false
  else
    try_except
      (actual_hash ← calculate_file_hash fs pdf_path;
       mret (bool_decide (actual_hash = expected_hash)))
      is_RuntimeError
      (fun _ => Ok false).

(** ** Actions on a database

    An action returns or raises, and leaves a database [D]. *)
Definition action (D A : Type) : Type := D -> result A * D.

(** [return a] *)
Definition returns {D A : Type} (a : A) : action D A := fun d => (Ok a, d).
(** A computation that does not touch the database. *)
Definition lift {D A : Type} (r : result A) : action D A := fun d => (r, d).

#[global] Instance action_ret {D : Type} : MRet (action D) := @returns D.
#[global] Instance action_bind {D : Type} : MBind (action D) := fun _ _ k m d =>
  match m d with
  | (Ok a, d') => k a d'
  | (Raise e, d') => (Raise e, d')
  end.

(** [try: with sqlite3.connect(self.db_path) as conn: ...; conn.commit()
    except sqlite3.Error as e: raise RuntimeError(...)]: the connection's
    context manager rolls the transaction back when the body raises. *)
Definition transaction {D A : Type} (body : action D A) : action D A := fun d =>
  match body d with
  | (Ok a, d') => (Ok a, d')
  | (Raise e, _) => (if is_sqlite3_Error e then Raise RuntimeError else Raise e, d)
  end.

(** ** The SQLite table [document_state] *)

(** [CURRENT_TIMESTAMP], in seconds. *)
Definition timestamp : Type := Z.

(** One row; the primary key [filename] is the key of the table. *)
Record row : Type := Row {
  markdown_hash : string;               (* TEXT NOT NULL *)
  pdf_hash : option string;             (* TEXT *)
  style_profile : string;               (* TEXT DEFAULT 'a4-print' *)
  max_diagram_width : option string;    (* TEXT *)
  max_diagram_height : option string;   (* TEXT *)
  page_margins : option string;         (* TEXT *)
  has_page_numbers : Z;                 (* INTEGER DEFAULT 1 *)
  created_at : timestamp;               (* TIMESTAMP DEFAULT CURRENT_TIMESTAMP *)
  updated_at : timestamp                (* TIMESTAMP DEFAULT CURRENT_TIMESTAMP *)
}.

#[global] Instance row_eq_dec : EqDecision row.
Proof. solve_decision. Defined.

(** The database file: the table may not exist yet (or no longer). *)
Inductive database : Type :=
  | NoTable
  | Table (rows : gmap string row).

(** Database actions: they return or raise, and leave a database. *)
Abbreviation M := (action database).

(** The statements the module executes.  A statement on a missing table
    raises [sqlite3.OperationalError], a [sqlite3.Error]. *)
Module SQL.


(** [CREATE TABLE document_state (...)] *)
Definition create_table : M unit := fun d =>
  match d with
  | NoTable => (Ok (), Table ∅)
  | Table _ => (Raise SqliteError, d)
  end.

(** [DROP TABLE IF EXISTS document_state] *)
Definition drop_table_if_exists : M unit := fun _ => (Ok (), NoTable).

(** [SELECT ... FROM document_state WHERE filename = ?], [fetchone()] *)
Definition select_where_filename (filename : string) : M (option row) := fun d =>
  match d with
  | NoTable => (Raise SqliteError, d)
  | Table rows => (Ok (rows !! filename), d)
  end.

(** [INSERT OR REPLACE INTO document_state (filename, markdown_hash,
    pdf_hash, style_profile, max_diagram_width, max_diagram_height,
    page_margins, has_page_numbers, updated_at) VALUES (?, ..., ?,
    CURRENT_TIMESTAMP)].  On a primary-key conflict REPLACE deletes the old
    row before it inserts the new one; [created_at] is not in the column
    list, so the new row takes its default, [CURRENT_TIMESTAMP]. *)
Definition insert_or_replace (now : timestamp) (filename : string)
    (markdown_hash : string) (pdf_hash : option string) (style_profile : string)
    (max_diagram_width max_diagram_height page_margins : option string)
    (has_page_numbers : Z) : M unit := fun d =>
  match d with
  | NoTable => (Raise SqliteError, d)
  | Table rows =>
      let new_row :=
        Row markdown_hash pdf_hash style_profile max_diagram_width
            max_diagram_height page_margins has_page_numbers
            now (* created_at: DEFAULT *) now (* updated_at *) in
      (Ok (), Table (<[filename := new_row]> (delete filename rows)))
  end.

(** [UPDATE document_state SET pdf_hash = ?, updated_at = CURRENT_TIMESTAMP
    WHERE filename = ?] *)
Definition update_set_pdf_hash (now : timestamp) (pdf_hash : string)
    (filename : string) : M unit := fun d =>
  match d with
  | NoTable => (Raise SqliteError, d)
  | Table rows =>
      let set (r : row) :=
        Row (markdown_hash r) (Some pdf_hash) (style_profile r)
            (max_diagram_width r) (max_diagram_height r) (page_margins r)
            (has_page_numbers r) (created_at r) now in
      (Ok (), Table (alter set filename rows))
  end.

(** [DELETE FROM document_state WHERE filename = ?] *)
Definition delete_where_filename (filename : string) : M unit := fun d =>
  match d with
  | NoTable => (Raise SqliteError, d)
  | Table rows => (Ok (), Table (delete filename rows))
  end.

(** [SELECT COUNT( * ) FROM document_state], [fetchone()[0]] *)
Definition select_count : M Z := fun d =>
  match d with
  | NoTable => (Raise SqliteError, d)
  | Table rows => (Ok (Z.of_nat (size rows)), d)
  end.

End SQL.

(** ** DocumentStateManager *)

(** The dictionary [get_document_state] builds from the selected columns. *)
Module Dict.
Record t : Type := Build {
  markdown_hash : string;
  pdf_hash : option string;
  style_profile : string;
  max_diagram_width : option string;
  max_diagram_height : option string;
  page_margins : option string;
  has_page_numbers : Z;
  updated_at : timestamp
}.
End Dict.

(** A diagram dimension as callers pass it: a pixel count ([int]) or a
    text such as ["80%"] ([str]). *)
Inductive dimension : Type :=
  | Pixels (n : Z)
  | Text (s : string).

(** [str(x)] *)
Definition str (x : dimension) : string :=
  match x with
  | Pixels n => NilZero.string_of_int (Z.to_int n)
  | Text s => s
  end.

(** [str(x) if x is not None else None] *)
Definition str_or_None (x : option dimension) : option string := str <$> x.

(** [1 if has_page_numbers else 0] *)
Definition int_of_flag (b : bool) : Z := if b then 1%Z else 0%Z.

(** Truth value of an [Optional[str]]: [None] and [""] are false. *)
Definition truthy (s : option string) : bool :=
  match s with
  | None => false
  | Some s => negb (bool_decide (s = ""))
  end.


Definition get_document_state (filename : string) : M (option Dict.t) :=
  transaction (
    result ← SQL.select_where_filename filename;
    match result with
    | Some r =>
        mret (Some (Dict.Build (markdown_hash r) (pdf_hash r) (style_profile r)
                      (max_diagram_width r) (max_diagram_height r)
                      (page_margins r) (has_page_numbers r) (updated_at r)))
    | None => mret None
    end).

Definition save_document_state (now : timestamp) (filename : string)
    (markdown_hash : string) (pdf_hash : option string) (style_profile : string)
    (max_diagram_width max_diagram_height : option dimension)
    (page_margins : option string) (has_page_numbers : bool) : M unit :=
  transaction (
    SQL.insert_or_replace now filename markdown_hash pdf_hash style_profile
      (str_or_None max_diagram_width) (str_or_None max_diagram_height)
      page_margins (int_of_flag has_page_numbers)).

Definition needs_regeneration (fs : filesystem) (filename : string)
    (current_markdown_hash : string) (pdf_path : string)
    (current_style_profile : string)
    (current_max_diagram_width current_max_diagram_height : option dimension)
    (current_page_margins : option string) (current_has_page_numbers : bool)
    : M bool :=
  state ← get_document_state filename;
  match state with
  | None => returns true
  | Some state =>
      if bool_decide (Dict.markdown_hash state ≠ current_markdown_hash)
      then returns true else
      let stored_profile := Dict.style_profile state in
      if bool_decide (stored_profile ≠ current_style_profile)
      then returns true else
      let stored_width := Dict.max_diagram_width state in
      let current_width_str := str_or_None current_max_diagram_width in
      if bool_decide (stored_width ≠ current_width_str)
      then returns true else
      let stored_height := Dict.max_diagram_height state in
      let current_height_str := str_or_None current_max_diagram_height in
      if bool_decide (stored_height ≠ current_height_str)
      then returns true else
      let stored_margins := Dict.page_margins state in
      if bool_decide (stored_margins ≠ current_page_margins)
      then returns true else
      let stored_page_numbers := Dict.has_page_numbers state in
      let current_page_numbers_int := int_of_flag current_has_page_numbers in
      if bool_decide (stored_page_numbers ≠ current_page_numbers_int)
      then returns true else
      if negb (truthy (Dict.pdf_hash state))
      then returns true else
      if negb (path_exists fs pdf_path)
      then returns true else
      lift (try_except
              (current_pdf_hash ← calculate_file_hash fs pdf_path;
               if bool_decide (Some current_pdf_hash ≠ Dict.pdf_hash state)
               then Ok true else Ok false)
              is_RuntimeError
              (fun _ => Ok true))
  end.

Definition update_pdf_hash (now : timestamp) (filename : string)
    (pdf_hash : string) : M unit :=
  transaction (SQL.update_set_pdf_hash now pdf_hash filename).

Definition remove_document (filename : string) : M unit :=
  transaction (SQL.delete_where_filename filename).

Definition clear_all_documents : M Z :=
  transaction (
    count ← SQL.select_count;
    _ ← SQL.drop_table_if_exists;
    _ ← SQL.create_table;
    mret count).

(** ** The earlier module [document_verification.py]

    [convert_md_to_pdf.py] still imports it.  Its table has the style
    profile as the only configuration column; the methods that check and
    save are modelled. *)

Module Legacy.

Record row : Type := Row {
  markdown_hash : string;     (* TEXT NOT NULL *)
  pdf_hash : option string;   (* TEXT *)
  style_profile : string;     (* TEXT DEFAULT 'a4-print' *)
  created_at : timestamp;     (* TIMESTAMP DEFAULT CURRENT_TIMESTAMP *)
  updated_at : timestamp      (* TIMESTAMP DEFAULT CURRENT_TIMESTAMP *)
}.

Inductive database : Type :=
  | NoTable
  | Table (rows : gmap string row).

Abbreviation M := (action database).

Module Dict.
Record t : Type := Build {
  markdown_hash : string;
  pdf_hash : option string;
  style_profile : string;
  updated_at : timestamp
}.
End Dict.

(** [SELECT markdown_hash, pdf_hash, style_profile, updated_at
    FROM document_state WHERE filename = ?] *)
Definition select_where_filename (filename : string) : M (option row) := fun d =>
  match d with
  | NoTable => (Raise SqliteError, d)
  | Table rows => (Ok (rows !! filename), d)
  end.

(** [INSERT OR REPLACE INTO document_state (filename, markdown_hash,
    pdf_hash, style_profile, updated_at) VALUES (?, ?, ?, ?,
    CURRENT_TIMESTAMP)] *)
Definition insert_or_replace (now : timestamp) (filename : string)
    (markdown_hash : string) (pdf_hash : option string) (style_profile : string)
    : M unit := fun d =>
  match d with
  | NoTable => (Raise SqliteError, d)
  | Table rows =>
      let new_row := Row markdown_hash pdf_hash style_profile now now in
      (Ok (), Table (<[filename := new_row]> (delete filename rows)))
  end.

Definition get_document_state (filename : string) : M (option Dict.t) :=
  transaction (
    result ← select_where_filename filename;
    match result with
    | Some r =>
        mret (Some (Dict.Build (markdown_hash r) (pdf_hash r) (style_profile r)
                      (updated_at r)))
    | None => mret None
    end).

Definition save_document_state (now : timestamp) (filename : string)
    (markdown_hash : string) (pdf_hash : option string) (style_profile : string)
    : M unit :=
  transaction (insert_or_replace now filename markdown_hash pdf_hash style_profile).

Definition needs_regeneration (fs : filesystem) (filename : string)
    (current_markdown_hash : string) (pdf_path : string)
    (current_style_profile : string) : M bool :=
  state ← get_document_state filename;
  match state with
  | None => returns true
  | Some state =>
      if bool_decide (Dict.markdown_hash state ≠ current_markdown_hash)
      then returns true else
      let stored_profile := Dict.style_profile state in
      if bool_decide (stored_profile ≠ current_style_profile)
      then returns true else
      if negb (truthy (Dict.pdf_hash state))
      then returns true else
      if negb (path_exists fs pdf_path)
      then returns true else
      lift (try_except
              (current_pdf_hash ← calculate_file_hash fs pdf_path;
               if bool_decide (Some current_pdf_hash ≠ Dict.pdf_hash state)
               then Ok true else Ok false)
              is_RuntimeError
              (fun _ => Ok true))
  end.

(** [SELECT COUNT( * ) FROM document_state], [fetchone()[0]] *)
Definition select_count : M Z := fun d =>
  match d with
  | NoTable => (Raise SqliteError, d)
  | Table rows => (Ok (Z.of_nat (size rows)), d)
  end.

(** [DELETE FROM document_state] *)
Definition delete_all : M unit := fun d =>
  match d with
  | NoTable => (Raise SqliteError, d)
  | Table _ => (Ok (), Table ∅)
  end.

(** [DELETE FROM document_state WHERE filename = ?] *)
Definition delete_where_filename (filename : string) : M unit := fun d =>
  match d with
  | NoTable => (Raise SqliteError, d)
  | Table rows => (Ok (), Table (delete filename rows))
  end.

(** [UPDATE document_state SET pdf_hash = ?, updated_at = CURRENT_TIMESTAMP
    WHERE filename = ?] *)
Definition update_set_pdf_hash (now : timestamp) (pdf_hash : string)
    (filename : string) : M unit := fun d =>
  match d with
  | NoTable => (Raise SqliteError, d)
  | Table rows =>
      let set (r : row) :=
        Row (markdown_hash r) (Some pdf_hash) (style_profile r) (created_at r) now in
      (Ok (), Table (alter set filename rows))
  end.

Definition update_pdf_hash (now : timestamp) (filename : string)
    (pdf_hash : string) : M unit :=
  transaction (update_set_pdf_hash now pdf_hash filename).

Definition remove_document (filename : string) : M unit :=
  transaction (delete_where_filename filename).

Definition clear_all_documents : M Z :=
  transaction (
    count ← select_count;
    _ ← delete_all;
    mret count).

End Legacy.

(** ** Vocabulary of the properties *)

(** The object one reaches by feeding the bytes [m] to a new digest object,
    however they were split over [update] calls. *)
Definition fed_with (m : list byte) : SHA256.hashobj :=
  SHA256.HashObj (SHA256.hash_blocks (length m / 64) SHA256.H0 m)
                 (drop (64 * (length m / 64)) m)
                 (length m).

(** One of [0123456789abcdef]. *)
Definition is_lower_hex_digit (c : Ascii.ascii) : bool :=
  let n := Ascii.N_of_ascii c in
  ((48 <=? n)%N && (n <=? 57)%N) || ((97 <=? n)%N && (n <=? 102)%N).

Fixpoint all_chars (p : Ascii.ascii -> bool) (s : string) : bool :=
  match s with
  | EmptyString => true
  | String c rest => p c && all_chars p rest
  end.

Definition dict_of_row (r : row) : Dict.t :=
  Dict.Build (markdown_hash r) (pdf_hash r) (style_profile r)
    (max_diagram_width r) (max_diagram_height r) (page_margins r)
    (has_page_numbers r) (updated_at r).

(** Every stored configuration field equals the current one, each in the
    form in which the table holds it. *)
Definition configuration_matches (r : row) (current_style_profile : string)
    (current_max_diagram_width current_max_diagram_height : option dimension)
    (current_page_margins : option string) (current_has_page_numbers : bool)
    : Prop :=
  style_profile r = current_style_profile
  ∧ max_diagram_width r = str_or_None current_max_diagram_width
  ∧ max_diagram_height r = str_or_None current_max_diagram_height
  ∧ page_margins r = current_page_margins
  ∧ has_page_numbers r = int_of_flag current_has_page_numbers.

(** The six positive conditions of the staleness check. *)
Definition fresh (fs : filesystem) (rows : gmap string row) (filename : string)
    (current_markdown_hash pdf_path current_style_profile : string)
    (current_max_diagram_width current_max_diagram_height : option dimension)
    (current_page_margins : option string) (current_has_page_numbers : bool)
    : Prop :=
  exists r,
    rows !! filename = Some r
    ∧ markdown_hash r = current_markdown_hash
    ∧ configuration_matches r current_style_profile current_max_diagram_width
        current_max_diagram_height current_page_margins current_has_page_numbers
    ∧ exists stored,
        pdf_hash r = Some stored
        ∧ is_Some (fs !! pdf_path)
        ∧ calculate_file_hash fs pdf_path = Ok stored.

(** The decision [needs_regeneration] takes once the row is fetched. *)
Definition stale (fs : filesystem) (r : row)
    (current_markdown_hash pdf_path current_style_profile : string)
    (current_max_diagram_width current_max_diagram_height : option dimension)
    (current_page_margins : option string) (current_has_page_numbers : bool)
    : bool :=
  bool_decide (markdown_hash r ≠ current_markdown_hash)
  || bool_decide (style_profile r ≠ current_style_profile)
  || bool_decide (max_diagram_width r ≠ str_or_None current_max_diagram_width)
  || bool_decide (max_diagram_height r ≠ str_or_None current_max_diagram_height)
  || bool_decide (page_margins r ≠ current_page_margins)
  || bool_decide (has_page_numbers r ≠ int_of_flag current_has_page_numbers)
  || negb (truthy (pdf_hash r))
  || negb (path_exists fs pdf_path)
  || match calculate_file_hash fs pdf_path with
     | Ok current_pdf_hash => bool_decide (Some current_pdf_hash ≠ pdf_hash r)
     | Raise _ => true
     end.

(** [n] calls of the same method, one after the other. *)
Fixpoint call_repeatedly {A : Type} (n : nat) (call : M A) : M (list A) :=
  match n with
  | O => returns []
  | S n' => a ← call; rest ← call_repeatedly n' call; returns (a :: rest)
  end.

(** The row a [save_document_state] at time [now] writes. *)
Definition saved_row (now : timestamp) (markdown_hash : string)
    (pdf_hash : option string) (style_profile : string)
    (max_diagram_width max_diagram_height : option dimension)
    (page_margins : option string) (has_page_numbers : bool) : row :=
  Row markdown_hash pdf_hash style_profile (str_or_None max_diagram_width)
      (str_or_None max_diagram_height) page_margins
      (int_of_flag has_page_numbers) now now.

(** Bytes of an ASCII string literal, for test vectors. *)
Fixpoint bytes_of_string (s : string) : list byte :=
  match s with
  | EmptyString => []
  | String c rest => Ascii.byte_of_ascii c :: bytes_of_string rest
  end.

(** The record of the concrete scenario: ["doc.md"], saved at time 100. *)
Definition doc_row : row :=
  Row "hashA" (Some "hashB") "a4-print" (Some "1680") (Some "2240")
      (Some "1in 0.75in") 1%Z 100%Z 100%Z.

Definition doc_store : gmap string row := {[ "doc.md" := doc_row ]}.


(** [s.endswith('%')] *)
Fixpoint endswith_percent (s : string) : bool :=
  match s with
  | EmptyString => false
  | String c EmptyString => Ascii.eqb c "%"
  | String _ rest => endswith_percent rest
  end.

(** A dimension as the converters pass it: a pixel count, or a percentage
    text such as ["80%"]. *)
Definition pixels_or_percentage (x : dimension) : Prop :=
  match x with
  | Pixels _ => True
  | Text s => endswith_percent s = true
  end.

(** ** The converter's use of the store ([ebook_converter.py])

    The converter works on the files and on the store.  What it delegates
    to pandoc, Calibre and the browser is a parameter: an action on the
    world that returns its verdict or raises.  Logging is left out. *)

Record world : Type := World {
  files : filesystem;
  store : database
}.

(** A store method, called on the world's store. *)
Definition on_store {A : Type} (method : M A) : action world A := fun w =>
  let '(r, d) := method (store w) in (r, World (files w) d).

(** [calculate_file_hash(path)] on the world's files. *)
Definition hash_file (path : string) : action world string := fun w =>
  (calculate_file_hash (files w) path, w).

(** [self.state_manager.needs_regeneration(...)]: the check looks at the
    world's files and reads the world's store. *)
Definition state_manager_needs_regeneration (filename : string)
    (current_markdown_hash : string) (pdf_path : string)
    (current_style_profile : string)
    (current_max_diagram_width current_max_diagram_height : option dimension)
    (current_page_margins : option string) (current_has_page_numbers : bool)
    : action world bool := fun w =>
  on_store (needs_regeneration (files w) filename current_markdown_hash pdf_path
              current_style_profile current_max_diagram_width
              current_max_diagram_height current_page_margins
              current_has_page_numbers) w.

(** [try: body except <classes>: handler], for actions: what the body did
    before it raised stays done. *)
Definition try_except_action {D A : Type} (body : action D A)
    (catches : exn -> bool) (handler : exn -> action D A) : action D A := fun d =>
  match body d with
  | (Ok a, d') => (Ok a, d')
  | (Raise e, d') => if catches e then handler e d' else (Raise e, d')
  end.

Section MarkdownToEbookConverter.

(** [self.style_profile], [self.diagram_width], [self.diagram_height] *)
Variable style_profile : string.
Variables diagram_width diagram_height : option dimension.
(** [md_file.name], [self.format_output_dir / f"{md_file.stem}.{self.output_format}"]
    and [self.temp_dir / f"{md_file.stem}.epub"] *)
Variables name output_path epub_path : string -> string.
(** [CURRENT_TIMESTAMP] when the converter saves *)
Variable now : timestamp.
(** The conversions themselves *)
Variable _convert_md_to_format : string -> string -> action world bool.
Variable _convert_to_epub : string -> string -> string -> action world bool.
Variable _convert_epub_to_mobi : string -> string -> action world bool.

Definition _convert_single_file (md_file : string) : action world (bool * string) :=
  try_except_action
    (let filename := name md_file in
     let output_file := output_path md_file in
     current_markdown_hash ← hash_file md_file;
     regenerate ← state_manager_needs_regeneration filename current_markdown_hash
                    output_file style_profile diagram_width diagram_height
                    None false;
     if negb regenerate
     then (returns (true, filename) : action world (bool * string)) else
     converted ← _convert_md_to_format md_file output_file;
     if (converted : bool)
     then returns (true, filename) else returns (false, filename))
    Exception
    (fun e => returns (false, name md_file)).

Definition _convert_to_mobi (md_file output_mobi title : string) : action world bool :=
  try_except_action
    (let epub_file := epub_path md_file in
     made_epub ← _convert_to_epub md_file epub_file title;
     if negb made_epub then (returns false : action world bool) else
     made_mobi ← _convert_epub_to_mobi epub_file output_mobi;
     if negb made_mobi then (returns false : action world bool) else
     current_markdown_hash ← hash_file md_file;
     mobi_hash ← hash_file output_mobi;
     _ ← on_store (save_document_state now (name md_file) current_markdown_hash
                     (Some mobi_hash) style_profile diagram_width diagram_height
                     None false);
     returns true)
    Exception
    (fun e => returns false).

End MarkdownToEbookConverter.

(** ** Configuration ([config.py]) *)

Module Config.

(** What a call returns or raises; [ValueError] carries its message. *)
Inductive outcome (A : Type) : Type :=
  | Returned (a : A)
  | ValueError (message : string).
Arguments Returned {A} a.
Arguments ValueError {A} message.

(** [needle in s] *)
Fixpoint contains (needle s : string) : bool :=
  String.prefix needle s
  || match s with
     | EmptyString => false
     | String _ rest => contains needle rest
     end.

(** [s[:-1]] *)
Fixpoint all_but_last (s : string) : string :=
  match s with
  | EmptyString => EmptyString
  | String _ EmptyString => EmptyString
  | String c rest => String c (all_but_last rest)
  end.

Section parse_dimension_value.

(** The built-ins are parameters: [str.strip], [float] with the two
    comparisons made on its result, and [int]. *)
Variable strip : string -> string.
Variable float_value : Type.
Variable float : string -> outcome float_value.
Variables exceeds_100 is_positive : float_value -> bool.
Variable int : string -> outcome Z.

Definition parse_dimension_value (value : string) : outcome (option dimension) :=
  let value_stripped := strip value in
  let try_int :=
    match int value_stripped with
    | Returned n => Returned (Some (Pixels n))
    | ValueError _ => Returned None
    end in
  if endswith_percent value_stripped then
    let attempt : outcome (option (option dimension)) :=
      match float (all_but_last value_stripped) with
      | ValueError message => ValueError message
      | Returned percent_value =>
          if exceeds_100 percent_value then
            ValueError ("Percentage value cannot exceed 100% (got "
                        ++ value_stripped
                        ++ "). Use absolute pixel values if you need larger dimensions.")
          else if is_positive percent_value
               then Returned (Some (Some (Text value_stripped)))
               else Returned None
      end in
    match attempt with
    | Returned (Some result) => Returned result
    | Returned None => try_int
    | ValueError message =>
        if contains "cannot exceed 100%" message
        then ValueError message
        else try_int
    end
  else try_int.

End parse_dimension_value.

(** The configuration dictionary; [V] is the type of its values. *)
Section Config.

Context {V : Type}.

(** [d.update(updates)] *)
Definition update (d updates : gmap string V) : gmap string V := updates ∪ d.

(** [Config.__init__]; [defaults], [file_config] and [env_config] are what
    [_get_defaults()], [load_config_file()] and [get_config_from_env()]
    return.  [cli_args or {}] turns [None] into the empty dictionary. *)
Definition __init__ (defaults file_config env_config : gmap string V)
    (cli_args : option (gmap string V)) : gmap string V :=
  let cli_args := default ∅ cli_args in
  let _config := ∅ in
  let _config := update _config defaults in
  let _config := update _config file_config in
  let _config := update _config env_config in
  let _config := update _config cli_args in
  _config.

(** [Config.get]: [self._config.get(key, default)]; [None] is the default
    of [default]. *)
Definition get (_config : gmap string V) (key : string) (default : option V)
    : option V :=
  match _config !! key with
  | Some v => Some v
  | None => default
  end.

End Config.

End Config.

(** * Properties *)

(** ** Test vectors of the model (FIPS 180-4 and [hashlib]) *)

Example round_constants :
  nth 0 SHA256.K 0%Z = 0x428a2f98%Z ∧ nth 63 SHA256.K 0%Z = 0xc67178f2%Z
  ∧ length SHA256.K = 64.
Proof. repeat split. Qed.

Example initial_hash_value :
  SHA256.ra SHA256.H0 = 0x6a09e667%Z ∧ SHA256.rh SHA256.H0 = 0x5be0cd19%Z.
Proof. split; reflexivity. Qed.

Example sha256_empty :
  SHA256.hex (SHA256.sha256_oneshot []) =
  "e3b0c44298fc1c149afbf4c8996fb92427ae41e4649b934ca495991b7852b855".
Proof. vm_compute. reflexivity. Qed.

Example sha256_abc :
  SHA256.hex (SHA256.sha256_oneshot (bytes_of_string "abc")) =
  "ba7816bf8f01cfea414140de5dae2223b00361a396177a9cb410ff61f20015ad".
Proof. vm_compute. reflexivity. Qed.

Example sha256_two_blocks :
  SHA256.hex (SHA256.sha256_oneshot
    (bytes_of_string "abcdbcdecdefdefgefghfghighijhijkijkljklmklmnlmnomnopnopq")) =
  "248d6a61d20638b8e5c026930c3e6039a33ce45964ff2167f6ecedd419db06c1".
Proof. vm_compute. reflexivity. Qed.

Example sha256_streamed_abc :
  SHA256.hexdigest
    (SHA256.update (SHA256.update SHA256.new (bytes_of_string "a"))
                   (bytes_of_string "bc")) =
  "ba7816bf8f01cfea414140de5dae2223b00361a396177a9cb410ff61f20015ad".
Proof. vm_compute. reflexivity. Qed.

Example hash_of_two_chunks :
  calculate_file_hash {[ "out.pdf" := Regular (repeat Byte.x61 4200) ]} "out.pdf" =
  Ok "b8ab7a49c39e832796e597b7bdc937546c6d1376084b0cf87dc7f48aad8dc12c"%string.
Proof. vm_compute. reflexivity. Qed.

Example str_of_pixels : str (Pixels 1680) = "1680".
Proof. reflexivity. Qed.

(** A pixel count and the text of its decimal form are stored alike. *)
Example str_or_None_identifies :
  str_or_None (Some (Pixels 1680)) = str_or_None (Some (Text "1680")).
Proof. reflexivity. Qed.

(** The empty store answers true (no record). *)
Example needs_regeneration_empty_store :
  needs_regeneration ∅ "missing.md" "anyHash" "anyPath" "a4-print"
    None None None true (Table ∅) = (Ok true, Table ∅).
Proof. reflexivity. Qed.

(** ** The running digest object against the one-shot function *)

Section sha256_streaming.
Import SHA256.

Lemma blocks_le (len : nat) : 64 * (len / 64) ≤ len.
Proof. apply Nat.Div0.mul_div_le. Qed.

Lemma blocks_split (len extra : nat) :
  (len + extra) / 64 = len / 64 + (len - 64 * (len / 64) + extra) / 64.
Proof.
  pose proof (blocks_le len) as Hle.
  rewrite <- Nat.div_add_l by discriminate. f_equal. lia.
Qed.

Lemma hash_blocks_add (j k : nat) (h : regs) (m : list byte) :
  hash_blocks (j + k) h m = hash_blocks k (hash_blocks j h m) (drop (64 * j) m).
Proof.
  revert h m. induction j as [|j IH]; intros h m.
  - reflexivity.
  - cbn [Nat.add hash_blocks]. rewrite IH, drop_drop.
    replace (64 + 64 * j) with (64 * S j) by lia. reflexivity.
Qed.

(** Only the first [64 * k] bytes matter to [hash_blocks k]. *)
Lemma hash_blocks_app_le (k : nat) (h : regs) (a b : list byte) :
  64 * k ≤ length a -> hash_blocks k h (a ++ b) = hash_blocks k h a.
Proof.
  revert h a. induction k as [|k IH]; intros h a Hlen.
  - reflexivity.
  - cbn [hash_blocks]. rewrite take_app_le, drop_app_le by lia.
    apply IH. rewrite length_drop. lia.
Qed.

Lemma new_fed_with : new = fed_with [].
Proof. reflexivity. Qed.

Lemma update_fed_with (m data : list byte) :
  update (fed_with m) data = fed_with (m ++ data).
Proof.
  unfold update, fed_with. cbn [chain partial fed].
  set (q := length m / 64).
  assert (Hq : 64 * q ≤ length m) by apply blocks_le.
  rewrite <- drop_app_le by exact Hq.
  set (n := length (drop (64 * q) (m ++ data)) / 64).
  assert (Hn : length (m ++ data) / 64 = q + n).
  { subst n q. rewrite length_drop, !length_app, blocks_split.
    do 2 f_equal. pose proof (blocks_le (length m)). lia. }
  rewrite Hn, hash_blocks_add, (hash_blocks_app_le q) by exact Hq.
  rewrite drop_drop, length_app.
  replace (64 * q + 64 * n) with (64 * (q + n)) by lia. reflexivity.
Qed.

Lemma fold_update_fed_with (chunks : list (list byte)) (m : list byte) :
  fold_left update chunks (fed_with m) = fed_with (m ++ concat chunks).
Proof.
  revert m. induction chunks as [|c chunks IH]; intros m; cbn [fold_left concat].
  - by rewrite app_nil_r.
  - by rewrite update_fed_with, IH, app_assoc.
Qed.

Lemma digest_fed_with (m : list byte) :
  digest (fed_with m) = sha256_oneshot m.
Proof.
  unfold digest, sha256_oneshot, fed_with. cbn [chain partial fed]. cbv zeta.
  set (q := length m / 64).
  assert (Hq : 64 * q ≤ length m) by apply blocks_le.
  rewrite <- drop_app_le by exact Hq.
  set (n := length (drop (64 * q) (m ++ padding (length m))) / 64).
  assert (Hn : length (m ++ padding (length m)) / 64 = q + n).
  { subst n q. rewrite length_drop, !length_app, blocks_split.
    do 2 f_equal. pose proof (blocks_le (length m)). lia. }
  by rewrite Hn, hash_blocks_add, (hash_blocks_app_le q).
Qed.

Lemma length_regs_bytes (h : regs) : length (regs_bytes h) = 32.
Proof. reflexivity. Qed.

Lemma length_hex (bs : list byte) : String.length (hex bs) = 2 * length bs.
Proof. induction bs as [|b bs IH]; cbn [hex String.length length]; lia. Qed.

End sha256_streaming.

(** ** The content fingerprinter *)

Section fingerprinter.
Import SHA256.

Lemma bind_Ok {A B : Type} (a : A) (k : A -> result B) : Ok a ≫= k = k a.
Proof. reflexivity. Qed.

Lemma bind_Raise {A B : Type} (e : exn) (k : A -> result B) :
  Raise e ≫= k = Raise e.
Proof. reflexivity. Qed.

Lemma read_chunks_step (f : handle) (o : hashobj) :
  read_chunks f o =
  match f_read CHUNK_SIZE f with
  | Raise e => Raise e
  | Ok ([], _) => Ok o
  | Ok (b :: chunk, f') => read_chunks f' (update o (b :: chunk))
  end.
Proof.
  funelim (read_chunks f o);
    match goal with Hread : f_read _ _ = _ |- _ => by rewrite Hread end.
Qed.

Lemma CHUNK_SIZE_pos : exists k, CHUNK_SIZE = S k.
Proof. by exists (pred CHUNK_SIZE). Qed.

(** On a file that reads to its end the loop feeds every byte, in order. *)
Lemma read_chunks_healthy (content m : list byte) :
  read_chunks (Handle content true) (fed_with m) = Ok (fed_with (m ++ content)).
Proof.
  remember (length content) as n eqn:Hn. revert content m Hn.
  induction n as [n IH] using lt_wf_ind; intros content m ->.
  rewrite read_chunks_step. unfold f_read. cbn [unread healthy].
  destruct content as [|b rest].
  - by rewrite app_nil_r.
  - destruct CHUNK_SIZE_pos as [k ->]. cbn [take drop].
    rewrite update_fed_with.
    rewrite (IH (length (drop k rest))) with (content := drop k rest) (m := m ++ b :: take k rest);
      [| rewrite length_drop; cbn [length]; lia | reflexivity].
    by rewrite <- app_assoc, <- app_comm_cons, take_drop.
Qed.

(** On a damaged file the loop ends in the device's error. *)
Lemma read_chunks_damaged (readable : list byte) (o : hashobj) :
  read_chunks (Handle readable false) o = Raise OSError.
Proof.
  remember (length readable) as n eqn:Hn. revert readable o Hn.
  induction n as [n IH] using lt_wf_ind; intros readable o ->.
  rewrite read_chunks_step. unfold f_read. cbn [unread healthy].
  destruct readable as [|b rest]; [reflexivity |].
  destruct CHUNK_SIZE_pos as [k ->]. cbn [take drop].
  apply (IH (length (drop k rest))); [| reflexivity].
  rewrite length_drop. cbn [length]. lia.
Qed.

(** What [calculate_file_hash] returns, by the kind of file at the path. *)
Lemma calculate_file_hash_cases (fs : filesystem) (file_path : string) :
  calculate_file_hash fs file_path =
  match fs !! file_path with
  | Some (Regular content) => Ok (hex (sha256_oneshot content))
  | _ => Raise RuntimeError
  end.
Proof.
  unfold calculate_file_hash, open_rb.
  destruct (fs !! file_path) as [[content|readable|]|];
    rewrite ?bind_Ok, ?bind_Raise; try reflexivity.
  - rewrite new_fed_with, read_chunks_healthy, bind_Ok.
    unfold hexdigest. by rewrite digest_fed_with.
  - by rewrite read_chunks_damaged.
Qed.

End fingerprinter.

Lemma Ok_inj {A : Type} (a b : A) : Ok a = Ok b -> a = b.
Proof. by intros [= ->]. Qed.

Lemma calculate_file_hash_Raise (fs : filesystem) (file_path : string) (e : exn) :
  calculate_file_hash fs file_path = Raise e -> e = RuntimeError.
Proof.
  rewrite calculate_file_hash_cases.
  destruct (fs !! file_path) as [[]|]; congruence.
Qed.

Lemma calculate_file_hash_Ok_length (fs : filesystem) (file_path s : string) :
  calculate_file_hash fs file_path = Ok s -> String.length s = 64.
Proof.
  rewrite calculate_file_hash_cases.
  destruct (fs !! file_path) as [[content| |]|]; try discriminate.
  intros <-%Ok_inj. unfold SHA256.sha256_oneshot.
  rewrite length_hex, length_regs_bytes. reflexivity.
Qed.

Lemma calculate_file_hash_Ok_exists (fs : filesystem) (file_path s : string) :
  calculate_file_hash fs file_path = Ok s -> is_Some (fs !! file_path).
Proof.
  rewrite calculate_file_hash_cases.
  destruct (fs !! file_path) as [n|]; [eauto | discriminate].
Qed.

(** ** The store *)

Section store.

Implicit Types (fs : filesystem) (t : gmap string row) (r : row).
Implicit Types (filename pdf_path : string).

Lemma get_document_state_Table filename t :
  get_document_state filename (Table t) =
  (Ok (dict_of_row <$> t !! filename), Table t).
Proof.
  unfold get_document_state, transaction, mbind, action_bind. cbn.
  by destruct (t !! filename).
Qed.

Lemma get_document_state_NoTable filename :
  get_document_state filename NoTable = (Raise RuntimeError, NoTable).
Proof. reflexivity. Qed.

Lemma needs_regeneration_Table fs t filename h pdf_path sp w ht pm pn :
  needs_regeneration fs filename h pdf_path sp w ht pm pn (Table t) =
  (Ok match t !! filename with
      | None => true
      | Some r => stale fs r h pdf_path sp w ht pm pn
      end, Table t).
Proof.
  unfold needs_regeneration, mbind, action_bind.
  rewrite get_document_state_Table.
  destruct (t !! filename) as [r|]; [| reflexivity].
  unfold stale. cbn [fmap option_fmap option_map dict_of_row Dict.markdown_hash
    Dict.pdf_hash Dict.style_profile Dict.max_diagram_width
    Dict.max_diagram_height Dict.page_margins Dict.has_page_numbers].
  repeat (case_bool_decide; [reflexivity |]); cbn [orb].
  destruct (truthy (pdf_hash r)); [| reflexivity].
  destruct (path_exists fs pdf_path); [| reflexivity].
  cbn [negb orb]. unfold lift, try_except.
  destruct (calculate_file_hash fs pdf_path) as [c|e] eqn:Hh.
  - rewrite bind_Ok. by case_bool_decide.
  - rewrite bind_Raise. by rewrite (calculate_file_hash_Raise _ _ _ Hh).
Qed.

Lemma needs_regeneration_NoTable fs filename h pdf_path sp w ht pm pn :
  needs_regeneration fs filename h pdf_path sp w ht pm pn NoTable =
  (Raise RuntimeError, NoTable).
Proof. reflexivity. Qed.

End store.

(** ** Claims about the content fingerprinter *)

Section fingerprinter_claims.
Import SHA256.

Lemma hex_digit_lower (n : N) : is_lower_hex_digit (hex_digit n) = true.
Proof.
  destruct n as [|p]; [reflexivity |].
  do 5 (try destruct p as [p|p|]; try reflexivity).
Qed.

Lemma hex_all_lower (bs : list byte) : all_chars is_lower_hex_digit (hex bs) = true.
Proof.
  induction bs as [|b bs IH]; [reflexivity |].
  cbn [hex all_chars]. by rewrite !hex_digit_lower, IH.
Qed.

(** Feeding a message in any chunks gives the digest of the whole message. *)
Lemma hexdigest_of_chunks (chunks : list (list byte)) :
  hexdigest (fold_left update chunks new) = hex (sha256_oneshot (concat chunks)).
Proof.
  unfold hexdigest.
  by rewrite new_fed_with, fold_update_fed_with, digest_fed_with.
Qed.

(** C8: on every readable file, whatever its bytes, [calculate_file_hash]
    (which reads 4096-byte chunks into the running digest object) returns the
    hexadecimal form of the one-shot SHA-256 of the whole content, and that
    string has 64 characters, all of them lowercase hexadecimal digits. *)
Theorem calculate_file_hash_is_sha256
    (fs : filesystem) (file_path : string) (content : list byte) :
  fs !! file_path = Some (Regular content) ->
  calculate_file_hash fs file_path = Ok (hex (sha256_oneshot content))
  ∧ String.length (hex (sha256_oneshot content)) = 64
  ∧ all_chars is_lower_hex_digit (hex (sha256_oneshot content)) = true.
Proof.
  intros Hfile. split; [| split].
  - by rewrite calculate_file_hash_cases, Hfile.
  - unfold sha256_oneshot. by rewrite length_hex, length_regs_bytes.
  - apply hex_all_lower.
Qed.

Lemma calculate_file_hash_is_sha256_witness :
  calculate_file_hash {[ "out.pdf" := Regular (bytes_of_string "abc") ]} "out.pdf"
    = Ok (hex (sha256_oneshot (bytes_of_string "abc")))
  ∧ String.length (hex (sha256_oneshot (bytes_of_string "abc"))) = 64
  ∧ all_chars is_lower_hex_digit (hex (sha256_oneshot (bytes_of_string "abc"))) = true.
Proof.
  apply (calculate_file_hash_is_sha256
           {[ "out.pdf" := Regular (bytes_of_string "abc") ]} "out.pdf").
  vm_compute. reflexivity.
Defined.

(** C5, as the code has it: on every path whose file is missing, cannot be
    opened, or fails while it is read, [calculate_file_hash] raises
    [RuntimeError] to its caller; it returns no fingerprint. *)
Theorem calculate_file_hash_unreadable (fs : filesystem) (file_path : string) :
  (fs !! file_path = None
   ∨ fs !! file_path = Some Unopenable
   ∨ exists readable, fs !! file_path = Some (Damaged readable)) ->
  calculate_file_hash fs file_path = Raise RuntimeError.
Proof.
  rewrite calculate_file_hash_cases.
  intros [-> | [-> | [readable ->]]]; reflexivity.
Qed.

Lemma calculate_file_hash_unreadable_witness :
  calculate_file_hash ∅ "missing.pdf" = Raise RuntimeError.
Proof.
  apply calculate_file_hash_unreadable. left. vm_compute. reflexivity.
Defined.

(** C5 as stated fails: on a missing file the exception that leaves
    [calculate_file_hash] is no [IOError]. *)
Lemma calculate_file_hash_not_IOError :
  ~ exists e, calculate_file_hash ∅ "missing.pdf" = Raise e ∧ is_IOError e = true.
Proof.
  intros [e [Hraise Hio]].
  apply calculate_file_hash_Raise in Hraise. subst e. discriminate.
Qed.

End fingerprinter_claims.

(** ** Claims about the document state store *)

Section store_claims.

Implicit Types (fs : filesystem) (t : gmap string row) (r : row).
Implicit Types (filename pdf_path h sp : string) (w ht : option dimension).
Implicit Types (pm : option string) (pn : bool) (now : timestamp).

Lemma Some_eq_inv {A : Type} (a b : A) : Some a = Some b -> a = b.
Proof. by intros [= ->]. Qed.

Lemma truthy_fingerprint fs pdf_path stored :
  calculate_file_hash fs pdf_path = Ok stored -> truthy (Some stored) = true.
Proof.
  intros Hlen%calculate_file_hash_Ok_length. unfold truthy.
  case_bool_decide as Hempty; [| reflexivity].
  subst stored. discriminate.
Qed.

Lemma stale_false_iff fs r h pdf_path sp w ht pm pn :
  stale fs r h pdf_path sp w ht pm pn = false <->
  markdown_hash r = h
  ∧ configuration_matches r sp w ht pm pn
  ∧ exists stored,
      pdf_hash r = Some stored
      ∧ is_Some (fs !! pdf_path)
      ∧ calculate_file_hash fs pdf_path = Ok stored.
Proof.
  unfold stale, configuration_matches, path_exists.
  rewrite !orb_false_iff, !bool_decide_eq_false, !negb_false_iff,
    bool_decide_eq_true.
  split.
  - intros [[[[[[[[H1 H2] H3] H4] H5] H6] H7] H8] H9].
    apply dec_stable in H1, H2, H3, H4, H5, H6.
    repeat split; try assumption.
    destruct (calculate_file_hash fs pdf_path) as [c|e]; [| discriminate].
    apply bool_decide_eq_false, dec_stable in H9. by exists c.
  - intros (H1 & (H2 & H3 & H4 & H5 & H6) & stored & H7 & H8 & H9).
    rewrite H9, H7, (truthy_fingerprint _ _ _ H9).
    repeat split; try (intros Hne; by apply Hne); try assumption.
    apply bool_decide_eq_false. intros Hne. by apply Hne.
Qed.

Lemma needs_regeneration_Ok_false_iff fs t filename h pdf_path sp w ht pm pn :
  needs_regeneration fs filename h pdf_path sp w ht pm pn (Table t)
    = (Ok false, Table t)
  <-> fresh fs t filename h pdf_path sp w ht pm pn.
Proof.
  rewrite needs_regeneration_Table. unfold fresh.
  destruct (t !! filename) as [r|] eqn:Hrow.
  - pose proof (stale_false_iff fs r h pdf_path sp w ht pm pn) as Hiff.
    destruct (stale fs r h pdf_path sp w ht pm pn).
    + split; [discriminate |].
      intros (r' & Hr' & Hrest). apply Some_eq_inv in Hr'. subst r'.
      by apply Hiff in Hrest.
    + split; [| reflexivity].
      intros _. exists r. split; [reflexivity |]. by apply Hiff.
  - split; [discriminate |]. by intros (r' & Hr' & _).
Qed.


(** C6: when the record, the source fingerprint and the configuration all
    match and the output file exists, a failure to fingerprint that file is
    caught: [needs_regeneration] returns true and raises nothing. *)
Theorem needs_regeneration_absorbs_hash_failure
    fs t filename r h pdf_path sp w ht pm pn e :
  t !! filename = Some r ->
  markdown_hash r = h ->
  configuration_matches r sp w ht pm pn ->
  is_Some (fs !! pdf_path) ->
  calculate_file_hash fs pdf_path = Raise e ->
  needs_regeneration fs filename h pdf_path sp w ht pm pn (Table t)
    = (Ok true, Table t).
Proof.
  intros Hrow _ _ _ Hfail.
  rewrite needs_regeneration_Table, Hrow. unfold stale.
  rewrite Hfail. by rewrite orb_true_r.
Qed.

Lemma needs_regeneration_absorbs_hash_failure_witness :
  needs_regeneration {[ "out/doc.pdf" := Damaged (bytes_of_string "%PDF") ]}
    "doc.md" "hashA" "out/doc.pdf" "a4-print"
    (Some (Pixels 1680)) (Some (Pixels 2240)) (Some "1in 0.75in") true
    (Table doc_store)
  = (Ok true, Table doc_store).
Proof.
  apply (needs_regeneration_absorbs_hash_failure _ _ _ doc_row _ _ _ _ _ _ _
           RuntimeError).
  - vm_compute. reflexivity.
  - reflexivity.
  - vm_compute. repeat split; reflexivity.
  - vm_compute. eexists. reflexivity.
  - vm_compute. reflexivity.
Defined.

Lemma save_document_state_Table now filename h ph sp w ht pm pn t :
  save_document_state now filename h ph sp w ht pm pn (Table t) =
  (Ok (), Table (<[filename := saved_row now h ph sp w ht pm pn]> (delete filename t))).
Proof. reflexivity. Qed.

Lemma lookup_saved now filename h ph sp w ht pm pn t :
  (<[filename := saved_row now h ph sp w ht pm pn]> (delete filename t)) !! filename
  = Some (saved_row now h ph sp w ht pm pn).
Proof. apply lookup_insert_eq. Qed.



Lemma call_repeatedly_pure {A : Type} (call : M A) (a : A) (d : database) (n : nat) :
  call d = (Ok a, d) -> call_repeatedly n call d = (Ok (replicate n a), d).
Proof.
  intros Hcall. induction n as [|n IH]; [reflexivity |].
  cbn [call_repeatedly replicate]. unfold mbind, action_bind.
  by rewrite Hcall, IH.
Qed.

(** C3: after [save_document_state filename s h c], every one of any
    number of successive calls [needs_regeneration filename s path c]
    returns false and leaves the store as it was, provided the file at
    [path] exists and its computed fingerprint is [h]. *)
Theorem needs_regeneration_idempotent_after_save
    fs t now filename s h pdf_path sp w ht pm pn (n : nat) :
  is_Some (fs !! pdf_path) ->
  calculate_file_hash fs pdf_path = Ok h ->
  let saved := (save_document_state now filename s (Some h) sp w ht pm pn (Table t)).2 in
  call_repeatedly n (needs_regeneration fs filename s pdf_path sp w ht pm pn) saved
    = (Ok (replicate n false), saved).
Proof.
  intros Hexists Hhash saved. apply call_repeatedly_pure. subst saved.
  rewrite save_document_state_Table. cbn [snd].
  apply needs_regeneration_Ok_false_iff.
  exists (saved_row now s (Some h) sp w ht pm pn).
  split; [apply lookup_saved |]. split; [reflexivity |].
  split; [by repeat split |]. by exists h.
Qed.

Lemma needs_regeneration_idempotent_after_save_witness :
  let fs : filesystem := {[ "out/doc.pdf" := Regular (bytes_of_string "%PDF") ]} in
  let saved :=
    (save_document_state 100%Z "doc.md" "hashA"
       (Some "315d429b7714cedb6ad04ac31240145257692630457f3c88253c5beceac76027")
       "a4-print" (Some (Pixels 1680)) (Some (Pixels 2240))
       (Some "1in 0.75in") true (Table ∅)).2 in
  call_repeatedly 3
    (needs_regeneration fs "doc.md" "hashA" "out/doc.pdf" "a4-print"
       (Some (Pixels 1680)) (Some (Pixels 2240)) (Some "1in 0.75in") true) saved
  = (Ok [false; false; false], saved).
Proof.
  intros fs.
  apply (needs_regeneration_idempotent_after_save fs ∅ 100%Z "doc.md" "hashA"
           "315d429b7714cedb6ad04ac31240145257692630457f3c88253c5beceac76027"
           "out/doc.pdf" "a4-print" (Some (Pixels 1680)) (Some (Pixels 2240))
           (Some "1in 0.75in") true 3).
  - vm_compute. eexists. reflexivity.
  - vm_compute. reflexivity.
Defined.

(** What a save leaves in the row of its identifier: both timestamps are
    the time of this save, whether or not the identifier had a record. *)
Lemma save_document_state_timestamps now filename h ph sp w ht pm pn t :
  exists t',
    (save_document_state now filename h ph sp w ht pm pn (Table t)).2 = Table t'
    ∧ created_at <$> t' !! filename = Some now
    ∧ updated_at <$> t' !! filename = Some now.
Proof.
  rewrite save_document_state_Table. eexists. split; [reflexivity |].
  by rewrite lookup_saved.
Qed.

(** C4, at the failing input: the record of ["doc.md"] was created at time
    100; a save at time 200 leaves it with [created_at] 200. *)
Theorem save_document_state_resets_created_at :
  created_at <$> doc_store !! "doc.md" = Some 100%Z
  ∧ exists t',
      (save_document_state 200%Z "doc.md" "hashA" (Some "hashB") "a4-print"
         (Some (Pixels 1680)) (Some (Pixels 2240)) (Some "1in 0.75in") true
         (Table doc_store)).2 = Table t'
      ∧ created_at <$> t' !! "doc.md" = Some 200%Z
      ∧ updated_at <$> t' !! "doc.md" = Some 200%Z.
Proof.
  split; [by vm_compute |].
  apply save_document_state_timestamps.
Qed.

(** C7: [clear_all_documents] returns the number of records the table held
    when it was called, and afterwards [get_document_state] returns [None]
    for every identifier, so for each that had a record. *)
Theorem clear_all_documents_count t :
  (clear_all_documents (Table t)).1 = Ok (Z.of_nat (size t))
  ∧ forall filename,
      (get_document_state filename (clear_all_documents (Table t)).2).1 = Ok None.
Proof. split; [reflexivity |]. intros filename. reflexivity. Qed.

(** C9: [get_document_state] and [needs_regeneration] leave every store
    state as they found it, whatever they return or raise. *)
Theorem reads_do_not_write fs d filename h pdf_path sp w ht pm pn :
  (get_document_state filename d).2 = d
  ∧ (needs_regeneration fs filename h pdf_path sp w ht pm pn d).2 = d.
Proof.
  destruct d as [|t].
  - split; reflexivity.
  - by rewrite get_document_state_Table, needs_regeneration_Table.
Qed.

Lemma update_pdf_hash_Table now filename new_hash t :
  update_pdf_hash now filename new_hash (Table t) =
  (Ok (),
   Table (alter (fun r =>
                   Row (markdown_hash r) (Some new_hash) (style_profile r)
                       (max_diagram_width r) (max_diagram_height r)
                       (page_margins r) (has_page_numbers r) (created_at r) now)
                filename t)).
Proof. reflexivity. Qed.

(** C10: [update_pdf_hash] raises nothing; on an identifier with a record
    it replaces [pdf_hash] and [updated_at] and keeps the source
    fingerprint, every configuration field and [created_at]; on an
    identifier without a record it leaves the store unchanged; the records
    of other identifiers stay as they are. *)
Theorem update_pdf_hash_frame now filename new_hash t :
  (update_pdf_hash now filename new_hash (Table t)).1 = Ok ()
  ∧ exists t',
      (update_pdf_hash now filename new_hash (Table t)).2 = Table t'
      ∧ (forall r, t !! filename = Some r ->
           t' !! filename =
           Some (Row (markdown_hash r) (Some new_hash) (style_profile r)
                     (max_diagram_width r) (max_diagram_height r)
                     (page_margins r) (has_page_numbers r) (created_at r) now))
      ∧ (t !! filename = None -> t' = t)
      ∧ (forall other, other ≠ filename -> t' !! other = t !! other).
Proof.
  rewrite update_pdf_hash_Table. split; [reflexivity |].
  eexists. split; [reflexivity |]. split; [| split].
  - intros r Hrow. by rewrite lookup_alter_eq, Hrow.
  - intros Hnone. apply map_eq. intros k.
    destruct (decide (k = filename)) as [-> | Hne].
    + by rewrite lookup_alter_eq, Hnone.
    + by rewrite lookup_alter_ne.
  - intros other Hne. by rewrite lookup_alter_ne.
Qed.

End store_claims.

(** ** The earlier module *)

(** The earlier module has one configuration field, the style profile;
    changing it after a save makes its check return true as well. *)
Lemma legacy_needs_regeneration_after_profile_change
    (fs : filesystem) (t : gmap string Legacy.row) (now : timestamp)
    (filename h : string) (ph : option string) (pdf_path sp sp' : string) :
  sp' ≠ sp ->
  let saved := (Legacy.save_document_state now filename h ph sp (Legacy.Table t)).2 in
  Legacy.needs_regeneration fs filename h pdf_path sp' saved = (Ok true, saved).
Proof.
  intros Hchanged saved. subst saved.
  unfold Legacy.needs_regeneration, Legacy.get_document_state,
    Legacy.save_document_state, Legacy.insert_or_replace,
    Legacy.select_where_filename, transaction, mbind, action_bind.
  cbn [snd fst]. rewrite lookup_insert_eq.
  cbn [mret action_ret returns Legacy.Dict.markdown_hash Legacy.Dict.style_profile
       Legacy.markdown_hash Legacy.style_profile Legacy.pdf_hash Legacy.updated_at].
  rewrite (bool_decide_eq_false_2 (h ≠ h)) by (intros Hne; by apply Hne).
  by rewrite (bool_decide_eq_true_2 (sp ≠ sp')).
Qed.

(** * Further properties of the store *)

Section store_extras.

Implicit Types (fs : filesystem) (t : gmap string row) (r : row).
Implicit Types (filename other pdf_path h sp : string) (w ht : option dimension).
Implicit Types (ph pm : option string) (pn : bool) (now : timestamp).

Lemma needs_regeneration_after_save
    fs t now filename h ph sp w ht pm pn h' pdf_path sp' w' ht' pm' pn' :
  needs_regeneration fs filename h' pdf_path sp' w' ht' pm' pn'
    (save_document_state now filename h ph sp w ht pm pn (Table t)).2
  = (Ok (stale fs (saved_row now h ph sp w ht pm pn) h' pdf_path sp' w' ht' pm' pn'),
     (save_document_state now filename h ph sp w ht pm pn (Table t)).2).
Proof.
  rewrite save_document_state_Table. cbn [snd].
  by rewrite needs_regeneration_Table, lookup_saved.
Qed.

(** X1: a save followed by a read of the same identifier returns every
    field as it was saved, the dimensions in their textual form, the flag as
    0 or 1, and [updated_at] the time of the save. *)
Theorem get_document_state_after_save now filename h ph sp w ht pm pn t :
  (get_document_state filename
     (save_document_state now filename h ph sp w ht pm pn (Table t)).2).1
  = Ok (Some (Dict.Build h ph sp (str_or_None w) (str_or_None ht) pm
                (int_of_flag pn) now)).
Proof.
  rewrite save_document_state_Table. cbn [snd].
  by rewrite get_document_state_Table, lookup_saved.
Qed.

(** X2: a save replaces the whole record: saving twice under one identifier
    leaves the store exactly as the second save alone would, so no field of
    the first save survives. *)
Theorem save_document_state_last_wins
    now1 now2 filename h1 h2 ph1 ph2 sp1 sp2 w1 w2 ht1 ht2 pm1 pm2 pn1 pn2 t :
  save_document_state now2 filename h2 ph2 sp2 w2 ht2 pm2 pn2
    (save_document_state now1 filename h1 ph1 sp1 w1 ht1 pm1 pn1 (Table t)).2
  = save_document_state now2 filename h2 ph2 sp2 w2 ht2 pm2 pn2 (Table t).
Proof.
  rewrite !save_document_state_Table. cbn [snd].
  rewrite save_document_state_Table.
  by rewrite delete_insert_eq, delete_delete_eq.
Qed.

(** X3: a save under one identifier leaves every other identifier as it
    was: what a read returns for it and what the staleness check answers
    for it do not change. *)
Theorem save_document_state_frame
    fs now filename other h ph sp w ht pm pn t h' pdf_path sp' w' ht' pm' pn' :
  other ≠ filename ->
  (get_document_state other
     (save_document_state now filename h ph sp w ht pm pn (Table t)).2).1
    = (get_document_state other (Table t)).1
  ∧ (needs_regeneration fs other h' pdf_path sp' w' ht' pm' pn'
       (save_document_state now filename h ph sp w ht pm pn (Table t)).2).1
    = (needs_regeneration fs other h' pdf_path sp' w' ht' pm' pn' (Table t)).1.
Proof.
  intros Hne. rewrite save_document_state_Table. cbn [snd].
  rewrite !get_document_state_Table, !needs_regeneration_Table. cbn [fst].
  by rewrite lookup_insert_ne, lookup_delete_ne.
Qed.

Lemma save_document_state_frame_witness :
  (get_document_state "other.md"
     (save_document_state 200%Z "new.md" "hashN" None "a4-print" None None None
        true (Table doc_store)).2).1
    = (get_document_state "other.md" (Table doc_store)).1
  ∧ (needs_regeneration ∅ "other.md" "hashA" "out/other.pdf" "a4-print" None
       None None true
       (save_document_state 200%Z "new.md" "hashN" None "a4-print" None None
          None true (Table doc_store)).2).1
    = (needs_regeneration ∅ "other.md" "hashA" "out/other.pdf" "a4-print" None
         None None true (Table doc_store)).1.
Proof.
  apply (save_document_state_frame ∅ 200%Z "new.md" "other.md").
  discriminate.
Defined.

(** X4: the store holds one record per identifier: after a save the number
    of records (as [clear_all_documents] counts them) is unchanged when the
    identifier had a record and one more when it had none. *)
Theorem save_document_state_count now filename h ph sp w ht pm pn t :
  (clear_all_documents
     (save_document_state now filename h ph sp w ht pm pn (Table t)).2).1
  = Ok (Z.of_nat (size t) + match t !! filename with Some _ => 0 | None => 1 end)%Z.
Proof.
  rewrite save_document_state_Table. cbn [snd].
  change (clear_all_documents (Table ?m)).1 with (Ok (A:=Z) (Z.of_nat (size m))).
  f_equal.
  rewrite map_size_insert, lookup_delete_eq, map_size_delete.
  destruct (t !! filename) as [r|] eqn:Hrow.
  - assert (size t ≠ 0%nat).
    { intros H0. apply map_size_empty_inv in H0. subst t.
      by rewrite lookup_empty in Hrow. }
    rewrite Nat.succ_pred by assumption. lia.
  - unfold id. lia.
Qed.

(** X5: after [remove_document] the identifier has no record: a read
    returns [None] and the staleness check answers true, whatever the
    arguments and the files are. *)
Theorem remove_document_forgets fs filename t h pdf_path sp w ht pm pn :
  (get_document_state filename (remove_document filename (Table t)).2).1 = Ok None
  ∧ (needs_regeneration fs filename h pdf_path sp w ht pm pn
       (remove_document filename (Table t)).2).1 = Ok true.
Proof.
  change (remove_document filename (Table t)).2 with (Table (delete filename t)).
  rewrite get_document_state_Table, needs_regeneration_Table. cbn [fst].
  by rewrite lookup_delete_eq.
Qed.

(** X6: [remove_document] on an identifier without a record raises nothing
    and leaves the store as it was; on any identifier it leaves the records
    of the other identifiers untouched. *)
Theorem remove_document_frame filename t :
  (remove_document filename (Table t)).1 = Ok ()
  ∧ (t !! filename = None -> (remove_document filename (Table t)).2 = Table t)
  ∧ forall other, other ≠ filename ->
      (get_document_state other (remove_document filename (Table t)).2).1
      = (get_document_state other (Table t)).1.
Proof.
  change (remove_document filename (Table t)) with (Ok (), Table (delete filename t)).
  cbn [fst snd]. split; [reflexivity |]. split.
  - intros Hnone. by rewrite delete_id.
  - intros other Hne. rewrite !get_document_state_Table. cbn [fst].
    by rewrite lookup_delete_ne.
Qed.

(** X7: removing an identifier that had no record before it was saved
    restores the store exactly. *)
Theorem remove_document_undoes_save now filename h ph sp w ht pm pn t :
  t !! filename = None ->
  (remove_document filename
     (save_document_state now filename h ph sp w ht pm pn (Table t)).2).2
  = Table t.
Proof.
  intros Hnone. rewrite save_document_state_Table. cbn [snd].
  change (remove_document filename (Table ?m)).2 with (Table (delete filename m)).
  by rewrite delete_insert_eq, delete_delete_eq, delete_id.
Qed.

Lemma remove_document_undoes_save_witness :
  (remove_document "new.md"
     (save_document_state 200%Z "new.md" "hashN" None "a4-print" None None None
        true (Table doc_store)).2).2
  = Table doc_store.
Proof.
  apply (remove_document_undoes_save 200%Z "new.md"). vm_compute. reflexivity.
Defined.


(** X9: while the table is missing every method of the store raises
    [RuntimeError] and leaves the database as it is; in particular
    [needs_regeneration] passes the storage failure on instead of answering. *)
Theorem missing_table_raises fs now filename h ph sp w ht pm pn pdf_path :
  get_document_state filename NoTable = (Raise RuntimeError, NoTable)
  ∧ save_document_state now filename h ph sp w ht pm pn NoTable
      = (Raise RuntimeError, NoTable)
  ∧ needs_regeneration fs filename h pdf_path sp w ht pm pn NoTable
      = (Raise RuntimeError, NoTable)
  ∧ update_pdf_hash now filename h NoTable = (Raise RuntimeError, NoTable)
  ∧ remove_document filename NoTable = (Raise RuntimeError, NoTable)
  ∧ clear_all_documents NoTable = (Raise RuntimeError, NoTable).
Proof. repeat split. Qed.

Lemma truthy_false_iff ph : truthy ph = false <-> ph = None ∨ ph = Some "".
Proof.
  destruct ph as [s|]; cbn [truthy].
  - rewrite negb_false_iff, bool_decide_eq_true. split.
    + intros ->. by right.
    + by intros [? | [= ->]].
  - split; [by left | reflexivity].
Qed.

(** X10: a record whose output fingerprint is absent ([None]) or empty is
    always stale: the check answers true whatever the source, the
    configuration and the output file are. *)
Theorem needs_regeneration_without_pdf_hash
    fs t r filename h pdf_path sp w ht pm pn :
  t !! filename = Some r ->
  pdf_hash r = None ∨ pdf_hash r = Some "" ->
  needs_regeneration fs filename h pdf_path sp w ht pm pn (Table t)
    = (Ok true, Table t).
Proof.
  intros Hrow Hnone%truthy_false_iff.
  rewrite needs_regeneration_Table, Hrow. unfold stale. rewrite Hnone.
  cbn [negb]. by rewrite !orb_true_r.
Qed.

Lemma needs_regeneration_without_pdf_hash_witness :
  needs_regeneration ∅ "doc.md" "hashA" "out/doc.pdf" "a4-print"
    (Some (Pixels 1680)) (Some (Pixels 2240)) None true
    (Table {[ "doc.md" := Row "hashA" None "a4-print" (Some "1680") (Some "2240")
                            None 1%Z 100%Z 100%Z ]})
  = (Ok true,
     Table {[ "doc.md" := Row "hashA" None "a4-print" (Some "1680") (Some "2240")
                            None 1%Z 100%Z 100%Z ]}).
Proof.
  apply (needs_regeneration_without_pdf_hash ∅ _
           (Row "hashA" None "a4-print" (Some "1680") (Some "2240") None 1%Z
                100%Z 100%Z)).
  - vm_compute. reflexivity.
  - left. reflexivity.
Defined.



(** X12: [clear_all_documents] invalidates everything: afterwards the check
    answers true for every identifier and all arguments. *)
Theorem needs_regeneration_after_clear fs t filename h pdf_path sp w ht pm pn :
  (needs_regeneration fs filename h pdf_path sp w ht pm pn
     (clear_all_documents (Table t)).2).1 = Ok true.
Proof. reflexivity. Qed.

(** X13: [update_pdf_hash] completes a record: after a save (with whatever
    output fingerprint, also none) and an [update_pdf_hash] with the
    fingerprint of the output file, the check with the saved source
    fingerprint and configuration answers false. *)
Theorem update_pdf_hash_completes_save
    fs t now1 now2 filename s ph h pdf_path sp w ht pm pn :
  calculate_file_hash fs pdf_path = Ok h ->
  (needs_regeneration fs filename s pdf_path sp w ht pm pn
     (update_pdf_hash now2 filename h
        (save_document_state now1 filename s ph sp w ht pm pn (Table t)).2).2).1
  = Ok false.
Proof.
  intros Hhash. rewrite save_document_state_Table. cbn [snd].
  rewrite update_pdf_hash_Table. cbn [snd].
  rewrite needs_regeneration_Table, lookup_alter_eq, lookup_saved.
  cbn [fmap option_fmap option_map fst]. f_equal.
  apply stale_false_iff. cbn.
  split; [reflexivity |]. split; [by repeat split |].
  exists h. split; [reflexivity |].
  split; [by eapply calculate_file_hash_Ok_exists | assumption].
Qed.

Lemma update_pdf_hash_completes_save_witness :
  (needs_regeneration {[ "out/doc.pdf" := Regular (bytes_of_string "%PDF") ]}
     "doc.md" "hashA" "out/doc.pdf" "a4-print" None None None true
     (update_pdf_hash 200%Z "doc.md"
        "315d429b7714cedb6ad04ac31240145257692630457f3c88253c5beceac76027"
        (save_document_state 100%Z "doc.md" "hashA" None "a4-print" None None
           None true (Table ∅)).2).2).1
  = Ok false.
Proof.
  apply update_pdf_hash_completes_save. vm_compute. reflexivity.
Defined.

Lemma verify_pdf_exists_and_matches_cases fs pdf_path (expected_hash : string) :
  verify_pdf_exists_and_matches fs pdf_path expected_hash =
  Ok match fs !! pdf_path with
     | Some (Regular content) =>
         bool_decide (SHA256.hex (SHA256.sha256_oneshot content) = expected_hash)
     | _ => false
     end.
Proof.
  unfold verify_pdf_exists_and_matches, path_exists.
  rewrite calculate_file_hash_cases.
  destruct (fs !! pdf_path) as [[content| |]|]; try reflexivity.
Qed.


(** X15: the staleness check is a key match followed by the output
    verification: it answers false exactly when the record's source
    fingerprint and configuration are the current ones and
    [verify_pdf_exists_and_matches] accepts the output file against the
    stored output fingerprint. *)
Theorem needs_regeneration_false_iff_verified
    fs t filename h pdf_path sp w ht pm pn :
  needs_regeneration fs filename h pdf_path sp w ht pm pn (Table t)
    = (Ok false, Table t)
  <-> exists r stored,
        t !! filename = Some r
        ∧ markdown_hash r = h
        ∧ configuration_matches r sp w ht pm pn
        ∧ pdf_hash r = Some stored
        ∧ verify_pdf_exists_and_matches fs pdf_path stored = Ok true.
Proof.
  rewrite needs_regeneration_Ok_false_iff. unfold fresh.
  split.
  - intros (r & Hrow & Hh & Hcfg & stored & Hstored & Hex & Hhash).
    exists r, stored. repeat (split; [assumption |]).
    rewrite verify_pdf_exists_and_matches_cases.
    rewrite calculate_file_hash_cases in Hhash.
    destruct (fs !! pdf_path) as [[content| |]|]; try discriminate.
    apply Ok_inj in Hhash. by rewrite bool_decide_eq_true_2.
  - intros (r & stored & Hrow & Hh & Hcfg & Hstored & Hver).
    exists r. repeat (split; [assumption |]). exists stored.
    split; [assumption |].
    rewrite verify_pdf_exists_and_matches_cases in Hver.
    rewrite calculate_file_hash_cases.
    destruct (fs !! pdf_path) as [[content| |]|]; try discriminate.
    apply Ok_inj in Hver. apply bool_decide_eq_true in Hver.
    split; [by eexists | by rewrite Hver].
Qed.

Lemma all_chars_not_percent (s : string) :
  all_chars (fun c => negb (Ascii.eqb c "%")) s = true ->
  endswith_percent s = false.
Proof.
  induction s as [|c s IH]; [reflexivity |].
  cbn [all_chars endswith_percent]. intros [Hc Hs]%andb_true_iff.
  destruct s as [|c' s']; [by apply negb_true_iff | by apply IH].
Qed.

Lemma string_of_uint_no_percent (d : Decimal.uint) :
  all_chars (fun c => negb (Ascii.eqb c "%")) (NilEmpty.string_of_uint d) = true.
Proof. induction d; cbn [NilEmpty.string_of_uint all_chars]; by rewrite ?IHd. Qed.

Lemma str_Pixels_no_percent (n : Z) : endswith_percent (str (Pixels n)) = false.
Proof.
  apply all_chars_not_percent. unfold str, NilZero.string_of_int.
  destruct (Z.to_int n) as [d|d]; cbn [all_chars];
    destruct d; try apply string_of_uint_no_percent; reflexivity.
Qed.

Lemma str_Pixels_inj (n m : Z) : str (Pixels n) = str (Pixels m) -> n = m.
Proof.
  unfold str. intros Heq. apply DecimalZ.to_int_inj.
  assert (Hnz : forall z, Z.to_int z ≠ Decimal.Pos Decimal.Nil
                          ∧ Z.to_int z ≠ Decimal.Neg Decimal.Nil).
  { intros z. split; intros Hz; pose proof (f_equal Z.of_int Hz) as Hz';
      rewrite DecimalZ.of_to in Hz'; cbn in Hz'; subst z; discriminate Hz. }
  pose proof (NilZero.isi (Z.to_int n) (proj1 (Hnz n)) (proj2 (Hnz n))) as Hn.
  pose proof (NilZero.isi (Z.to_int m) (proj1 (Hnz m)) (proj2 (Hnz m))) as Hm.
  rewrite Heq in Hn. congruence.
Qed.

(** On the dimensions the converters pass, the stored text tells the
    values apart. *)
Lemma str_or_None_inj (x y : option dimension) :
  from_option pixels_or_percentage True x ->
  from_option pixels_or_percentage True y ->
  str_or_None x = str_or_None y -> x = y.
Proof.
  destruct x as [[n|s]|], y as [[m|s']|]; cbn; try discriminate; try done.
  - intros _ _ Heq%Some_eq_inv. do 2 f_equal. by apply str_Pixels_inj.
  - intros _ Hs' Heq%Some_eq_inv.
    pose proof (str_Pixels_no_percent n) as Hn. cbn in Hn. congruence.
  - intros Hs _ Heq%Some_eq_inv.
    pose proof (str_Pixels_no_percent m) as Hm. cbn in Hm. congruence.
  - by intros _ _ [= ->].
Qed.

(** X16: for the dimensions the converters pass (a pixel count, or a text
    ending in [%], or none) every change of the diagram width or height
    after a save is detected: the check answers true. *)
Theorem needs_regeneration_after_dimension_change
    fs t now filename h ph pdf_path sp w ht pm pn w' ht' :
  from_option pixels_or_percentage True w ->
  from_option pixels_or_percentage True ht ->
  from_option pixels_or_percentage True w' ->
  from_option pixels_or_percentage True ht' ->
  w' ≠ w ∨ ht' ≠ ht ->
  (needs_regeneration fs filename h pdf_path sp w' ht' pm pn
     (save_document_state now filename h ph sp w ht pm pn (Table t)).2).1
  = Ok true.
Proof.
  intros Hw Hht Hw' Hht' Hchanged.
  rewrite needs_regeneration_after_save. cbn [fst]. f_equal.
  unfold stale, saved_row. cbn [markdown_hash style_profile max_diagram_width
    max_diagram_height page_margins has_page_numbers pdf_hash].
  destruct Hchanged as [Hne | Hne].
  - rewrite (bool_decide_eq_true_2 (str_or_None w ≠ str_or_None w')).
    + by rewrite !orb_true_r.
    + intros Heq. apply Hne. symmetry. by apply str_or_None_inj.
  - rewrite (bool_decide_eq_true_2 (str_or_None ht ≠ str_or_None ht')).
    + by rewrite !orb_true_r.
    + intros Heq. apply Hne. symmetry. by apply str_or_None_inj.
Qed.

Lemma needs_regeneration_after_dimension_change_witness :
  (needs_regeneration ∅ "doc.md" "hashA" "out/doc.pdf" "a4-print"
     (Some (Text "80%")) (Some (Pixels 2240)) None false
     (save_document_state 100%Z "doc.md" "hashA" (Some "hashB") "a4-print"
        (Some (Pixels 1680)) (Some (Pixels 2240)) None false (Table ∅)).2).1
  = Ok true.
Proof.
  apply needs_regeneration_after_dimension_change; try exact I.
  - reflexivity.
  - left. discriminate.
Defined.

End store_extras.

(** * Further properties of the earlier module *)

Section legacy_extras.

Implicit Types (fs : filesystem) (t : gmap string Legacy.row).
Implicit Types (filename pdf_path h sp : string) (now : timestamp).

Lemma legacy_needs_regeneration_Table fs t filename h pdf_path sp :
  Legacy.needs_regeneration fs filename h pdf_path sp (Legacy.Table t) =
  (Ok match t !! filename with
      | None => true
      | Some r =>
          bool_decide (Legacy.markdown_hash r ≠ h)
          || bool_decide (Legacy.style_profile r ≠ sp)
          || negb (truthy (Legacy.pdf_hash r))
          || negb (path_exists fs pdf_path)
          || match calculate_file_hash fs pdf_path with
             | Ok current_pdf_hash =>
                 bool_decide (Some current_pdf_hash ≠ Legacy.pdf_hash r)
             | Raise _ => true
             end
      end, Legacy.Table t).
Proof.
  unfold Legacy.needs_regeneration, Legacy.get_document_state,
    Legacy.select_where_filename, transaction, mbind, action_bind.
  destruct (t !! filename) as [r|]; [| reflexivity].
  cbn [mret action_ret returns Legacy.Dict.markdown_hash Legacy.Dict.style_profile
       Legacy.Dict.pdf_hash].
  repeat (case_bool_decide; [reflexivity |]); cbn [orb].
  destruct (truthy (Legacy.pdf_hash r)); [| reflexivity].
  destruct (path_exists fs pdf_path); [| reflexivity].
  cbn [negb orb]. unfold lift, try_except.
  destruct (calculate_file_hash fs pdf_path) as [c|e] eqn:Hh.
  - rewrite bind_Ok. by case_bool_decide.
  - rewrite bind_Raise. by rewrite (calculate_file_hash_Raise _ _ _ Hh).
Qed.


(** X18: [clear_all_documents] of the earlier module returns the number of
    records, deletes them all and keeps the table, so that a later save
    succeeds and is the only record. *)
Theorem legacy_clear_all_documents_count t now filename h ph sp :
  Legacy.clear_all_documents (Legacy.Table t)
    = (Ok (Z.of_nat (size t)), Legacy.Table ∅)
  ∧ Legacy.save_document_state now filename h ph sp
      (Legacy.clear_all_documents (Legacy.Table t)).2
    = (Ok (), Legacy.Table {[ filename := Legacy.Row h ph sp now now ]}).
Proof.
  split; [reflexivity |].
  change (Legacy.clear_all_documents (Legacy.Table t)).2 with (Legacy.Table ∅).
  unfold Legacy.save_document_state, Legacy.insert_or_replace, transaction.
  by rewrite delete_empty, insert_empty.
Qed.

(** X19: [update_pdf_hash] of the earlier module raises nothing; it
    replaces the output fingerprint and [updated_at] of an existing record,
    keeps its source fingerprint, style profile and [created_at], leaves a
    store without that identifier unchanged, and never touches other
    identifiers. *)
Theorem legacy_update_pdf_hash_frame now filename (new_hash : string) t :
  (Legacy.update_pdf_hash now filename new_hash (Legacy.Table t)).1 = Ok ()
  ∧ exists t',
      (Legacy.update_pdf_hash now filename new_hash (Legacy.Table t)).2
        = Legacy.Table t'
      ∧ (forall r, t !! filename = Some r ->
           t' !! filename =
           Some (Legacy.Row (Legacy.markdown_hash r) (Some new_hash)
                   (Legacy.style_profile r) (Legacy.created_at r) now))
      ∧ (t !! filename = None -> t' = t)
      ∧ (forall other, other ≠ filename -> t' !! other = t !! other).
Proof.
  split; [reflexivity |]. eexists. split; [reflexivity |]. split; [| split].
  - intros r Hrow. by rewrite lookup_alter_eq, Hrow.
  - intros Hnone. apply map_eq. intros k.
    destruct (decide (k = filename)) as [-> | Hne].
    + by rewrite lookup_alter_eq, Hnone.
    + by rewrite lookup_alter_ne.
  - intros other Hne. by rewrite lookup_alter_ne.
Qed.

(** X20: after [remove_document] of the earlier module the check answers
    true for that identifier, and the answers for other identifiers are as
    before. *)
Theorem legacy_remove_document_forgets fs t filename h pdf_path sp :
  (Legacy.needs_regeneration fs filename h pdf_path sp
     (Legacy.remove_document filename (Legacy.Table t)).2).1 = Ok true
  ∧ forall other, other ≠ filename ->
      (Legacy.needs_regeneration fs other h pdf_path sp
         (Legacy.remove_document filename (Legacy.Table t)).2).1
      = (Legacy.needs_regeneration fs other h pdf_path sp (Legacy.Table t)).1.
Proof.
  change (Legacy.remove_document filename (Legacy.Table t)).2
    with (Legacy.Table (delete filename t)).
  split.
  - rewrite legacy_needs_regeneration_Table. cbn [fst].
    by rewrite lookup_delete_eq.
  - intros other Hne. rewrite !legacy_needs_regeneration_Table. cbn [fst].
    by rewrite lookup_delete_ne.
Qed.

End legacy_extras.

(** * Properties of the converter's use of the store *)

Section converter_extras.

Variable style_profile : string.
Variables diagram_width diagram_height : option dimension.
Variables name output_path epub_path : string -> string.

Implicit Types (fs : filesystem) (t : gmap string row) (w : world).
Implicit Types (md_file : string) (convert : string -> string -> action world bool).

Lemma _convert_single_file_skips_fresh_aux convert md_file fs t s :
  calculate_file_hash fs md_file = Ok s ->
  fresh fs t (name md_file) s (output_path md_file) style_profile
    diagram_width diagram_height None false ->
  _convert_single_file style_profile diagram_width diagram_height name
    output_path convert md_file (World fs (Table t))
  = (Ok (true, name md_file), World fs (Table t)).
Proof.
  intros Hhash Hfresh%needs_regeneration_Ok_false_iff.
  unfold _convert_single_file, try_except_action, mbind, action_bind, hash_file,
    state_manager_needs_regeneration, on_store.
  cbn [files store]. by rewrite Hhash, Hfresh.
Qed.

(** X21: a document whose record is fresh is skipped: when the source can
    be fingerprinted and the six conditions hold for the identifier
    [md_file.name], the output path and the converter's configuration,
    [_convert_single_file] reports success without running the conversion
    and leaves files and store as they are. *)
Theorem _convert_single_file_skips_fresh convert md_file fs t s :
  calculate_file_hash fs md_file = Ok s ->
  fresh fs t (name md_file) s (output_path md_file) style_profile
    diagram_width diagram_height None false ->
  _convert_single_file style_profile diagram_width diagram_height name
    output_path convert md_file (World fs (Table t))
  = (Ok (true, name md_file), World fs (Table t)).
Proof. apply _convert_single_file_skips_fresh_aux. Qed.


(** X23: [_convert_single_file] raises nothing and always names the file;
    when the source cannot be fingerprinted, or the store's table is
    missing, it reports failure without running the conversion and leaves
    the world as it is. *)
Theorem _convert_single_file_absorbs_failures convert md_file w :
  (exists ok w',
     _convert_single_file style_profile diagram_width diagram_height name
       output_path convert md_file w = (Ok (ok, name md_file), w'))
  ∧ ((forall s, calculate_file_hash (files w) md_file ≠ Ok s) ∨ store w = NoTable ->
     _convert_single_file style_profile diagram_width diagram_height name
       output_path convert md_file w = (Ok (false, name md_file), w)).
Proof.
  destruct w as [fs d].
  unfold _convert_single_file, try_except_action, mbind, action_bind, hash_file,
    state_manager_needs_regeneration, on_store.
  cbn [files store].
  destruct (calculate_file_hash fs md_file) as [s|e] eqn:Hhash.
  - destruct d as [|t].
    + split; [by eexists _, _ |]. by intros _.
    + rewrite needs_regeneration_Table.
      destruct (match t !! name md_file with Some r => _ | None => _ end); cbn [negb].
      * split.
        -- destruct (convert md_file (output_path md_file) (World fs (Table t)))
             as [[[|]|e] w']; by eexists _, _.
        -- intros [Hno | Hd]; [by destruct (Hno s) | discriminate Hd].
      * split; [by eexists _, _ |].
        intros [Hno | Hd]; [by destruct (Hno s) | discriminate Hd].
  - split; [by eexists _, _ |]. by intros _.
Qed.

(** X24: a successful MOBI conversion is not repeated: when
    [_convert_to_mobi] returns true for the output path of a source, a
    following [_convert_single_file] on that source, with the files and the
    store as the conversion left them, skips it: it reports success, runs
    no conversion and changes nothing. *)
Theorem _convert_to_mobi_then_skipped
    now to_epub to_mobi convert md_file title w w' :
  _convert_to_mobi style_profile diagram_width diagram_height name epub_path now
    to_epub to_mobi md_file (output_path md_file) title w = (Ok true, w') ->
  _convert_single_file style_profile diagram_width diagram_height name
    output_path convert md_file w' = (Ok (true, name md_file), w').
Proof.
  unfold _convert_to_mobi, try_except_action, mbind, action_bind, hash_file, on_store.
  destruct (to_epub md_file (epub_path md_file) title w) as [[[|]|e1] w1];
    cbn [negb Exception returns]; try (intros [=]; fail).
  destruct (to_mobi (epub_path md_file) (output_path md_file) w1) as [[[|]|e2] w2];
    cbn [negb Exception returns]; try (intros [=]; fail).
  destruct w2 as [fs d]. cbn [files store].
  destruct (calculate_file_hash fs md_file) as [s|e3] eqn:Hs;
    cbn [Exception returns]; try (intros [=]; fail).
  destruct (calculate_file_hash fs (output_path md_file)) as [m|e4] eqn:Hm;
    cbn [Exception returns]; try (intros [=]; fail).
  destruct d as [|t]; [intros [=] |].
  rewrite save_document_state_Table. cbn [returns].
  intros Hw'. apply (f_equal snd) in Hw'. cbn [snd] in Hw'. subst w'.
  apply _convert_single_file_skips_fresh_aux with (s := s); [assumption |].
  exists (saved_row now s (Some m) style_profile diagram_width diagram_height None false).
  split; [apply lookup_saved |]. split; [reflexivity |].
  split; [by repeat split |]. exists m. split; [reflexivity |].
  split; [by eapply calculate_file_hash_Ok_exists | assumption].
Qed.

End converter_extras.

Lemma _convert_single_file_skips_fresh_witness :
  let fs : filesystem :=
    {[ "docs/doc.md" := Regular (bytes_of_string "# Title");
       "out/doc.pdf" := Regular (bytes_of_string "%PDF") ]} in
  let t : gmap string row :=
    {[ "doc.md" :=
         Row "79aeaf7ba450cdab4b13e948c49101b1de4d13e9b45e10e51ee99442c982a7e8"
           (Some "315d429b7714cedb6ad04ac31240145257692630457f3c88253c5beceac76027")
           "a4-print" (Some "1680") (Some "2240") None 0%Z 100%Z 100%Z ]} in
  _convert_single_file "a4-print" (Some (Pixels 1680)) (Some (Pixels 2240))
    (fun _ => "doc.md") (fun _ => "out/doc.pdf")
    (fun _ _ w => (Ok false, w)) "docs/doc.md" (World fs (Table t))
  = (Ok (true, "doc.md"), World fs (Table t)).
Proof.
  intros fs t.
  apply (_convert_single_file_skips_fresh "a4-print" (Some (Pixels 1680))
           (Some (Pixels 2240)) (fun _ => "doc.md")
           (fun _ => "out/doc.pdf") (fun _ _ w => (Ok false, w)) "docs/doc.md" fs t
           "79aeaf7ba450cdab4b13e948c49101b1de4d13e9b45e10e51ee99442c982a7e8").
  - vm_compute. reflexivity.
  - eexists. split; [vm_compute; reflexivity |]. split; [reflexivity |].
    split; [repeat split |]. eexists. split; [reflexivity |].
    split; [vm_compute; eexists; reflexivity | vm_compute; reflexivity].
Defined.


Lemma _convert_single_file_absorbs_failures_witness :
  _convert_single_file "a4-print" None None (fun _ => "doc.md")
    (fun _ => "out/doc.pdf") (fun _ _ w => (Ok true, w)) "docs/doc.md"
    (World ∅ (Table ∅))
  = (Ok (false, "doc.md"), World ∅ (Table ∅)).
Proof.
  apply (_convert_single_file_absorbs_failures "a4-print" None None
           (fun _ => "doc.md") (fun _ => "out/doc.pdf")
           (fun _ _ w => (Ok true, w)) "docs/doc.md" (World ∅ (Table ∅))).
  left. intros s. vm_compute. discriminate.
Defined.

Lemma _convert_to_mobi_then_skipped_witness :
  let w : world :=
    World {[ "docs/doc.md" := Regular (bytes_of_string "# Title") ]} (Table ∅) in
  let to_epub : string -> string -> string -> action world bool :=
    fun _ _ _ w => (Ok true, w) in
  let to_mobi : string -> string -> action world bool :=
    fun _ out w =>
      (Ok true, World (<[out := Regular (bytes_of_string "BOOKMOBI")]> (files w))
                      (store w)) in
  let w' :=
    (_convert_to_mobi "kindle" (Some (Pixels 1680)) (Some (Pixels 2240))
       (fun _ => "doc.md") (fun _ => "temp/doc.epub") 100%Z to_epub to_mobi
       "docs/doc.md" "out/doc.mobi" "Title" w).2 in
  _convert_single_file "kindle" (Some (Pixels 1680)) (Some (Pixels 2240))
    (fun _ => "doc.md") (fun _ => "out/doc.mobi")
    (fun _ _ w => (Ok false, w)) "docs/doc.md" w'
  = (Ok (true, "doc.md"), w').
Proof.
  intros w to_epub to_mobi w'.
  apply (_convert_to_mobi_then_skipped "kindle" (Some (Pixels 1680))
           (Some (Pixels 2240)) (fun _ => "doc.md") (fun _ => "out/doc.mobi")
           (fun _ => "temp/doc.epub") 100%Z to_epub to_mobi
           (fun _ _ w => (Ok false, w)) "docs/doc.md" "Title" w w').
  vm_compute. reflexivity.
Defined.

(** * Properties of the configuration *)

Section config_extras.

Variable strip : string -> string.
Variable float_value : Type.
Variable float : string -> Config.outcome float_value.
Variables exceeds_100 is_positive : float_value -> bool.
Variable int : string -> Config.outcome Z.

(** X25: whatever [parse_dimension_value] returns as a dimension is a pixel
    count or a text ending in [%]; so the dimensions that reach the store
    from the command line and the environment are those on which every
    change is detected. *)
Theorem parse_dimension_value_pixels_or_percentage (value : string) (x : dimension) :
  Config.parse_dimension_value strip float_value float exceeds_100 is_positive
    int value = Config.Returned (Some x) ->
  pixels_or_percentage x.
Proof.
  unfold Config.parse_dimension_value.
  assert (Hint : match int (strip value) with
                 | Config.Returned n => Config.Returned (Some (Pixels n))
                 | Config.ValueError _ => Config.Returned None
                 end = Config.Returned (Some x) -> pixels_or_percentage x).
  { destruct (int (strip value)); intros [= <-] || intros [=]. exact I. }
  destruct (endswith_percent (strip value)) eqn:Hpercent; [| exact Hint].
  destruct (float (Config.all_but_last (strip value))) as [f|message].
  - destruct (exceeds_100 f).
    + cbn [Config.contains]. destruct (Config.contains _ _); [intros [=] | exact Hint].
    + destruct (is_positive f); [| exact Hint].
      intros [= <-]. exact Hpercent.
  - destruct (Config.contains _ message); [intros [=] | exact Hint].
Qed.


End config_extras.

Lemma parse_dimension_value_pixels_or_percentage_witness :
  pixels_or_percentage (Text "80%").
Proof.
  apply (parse_dimension_value_pixels_or_percentage (fun s => s) Z
           (fun _ => Config.Returned 80%Z) (fun f => (100 <? f)%Z)
           (fun f => (0 <? f)%Z) (fun _ => Config.ValueError "invalid literal")
           "80%" (Text "80%")).
  vm_compute. reflexivity.
Defined.


(** X27: the configuration layers take precedence in the order command
    line, environment, file, defaults: [get] returns the value of the first
    of them that has the key, and the given default when none has. *)
Theorem Config_get_precedence {V : Type}
    (defaults file_config env_config : gmap string V)
    (cli_args : option (gmap string V)) (key : string) (fallback : option V) :
  Config.get (Config.__init__ defaults file_config env_config cli_args) key fallback
  = match default ∅ cli_args !! key with
    | Some v => Some v
    | None =>
        match env_config !! key with
        | Some v => Some v
        | None =>
            match file_config !! key with
            | Some v => Some v
            | None =>
                match defaults !! key with
                | Some v => Some v
                | None => fallback
                end
            end
        end
    end.
Proof.
  unfold Config.get, Config.__init__, Config.update.
  rewrite !lookup_union, lookup_empty.
  destruct (default ∅ cli_args !! key), (env_config !! key),
    (file_config !! key), (defaults !! key); reflexivity.
Qed.
